(** * ExecuTorch hello_world sample: bump-allocator accounting and program loader

    A shallow embedding of
      - [samples/modules/executorch/hello_world/src/et_memory_allocator.hpp]
        (class [ETMemoryAllocator]),
      - [program_loader.h] / [program_loader.cpp] (class [ProgramLoader]),
    followed by the properties of the sample's specification that concern them.

    Integers of type [size_t] are values of [Z] with the wrap-around written
    out; addresses are values of [Z]; a null pointer is [None]. *)

From Stdlib Require Import ZArith Lia Bool String.
From stdpp Require Import base list.

Local Open Scope Z_scope.

(** ** Build configuration *)

(** What the build fixes and the sources only name: the width of [size_t],
    [MemoryAllocator::kDefaultAlignment], the two Kconfig pool sizes and the
    addresses the linker gives the two static pools. *)
Class Platform := {
  size_bits : positive;
  kDefaultAlignment : Z;
  CONFIG_EXECUTORCH_METHOD_ALLOCATOR_POOL_SIZE : Z;
  CONFIG_EXECUTORCH_TEMP_ALLOCATOR_POOL_SIZE : Z;
  method_allocation_pool : Z;
  temp_allocation_pool : Z
}.

(** ** [size_t] arithmetic *)

Definition SIZE_MODULUS `{Platform} : Z := 2 ^ Z.pos size_bits.

Definition to_size_t `{Platform} (z : Z) : Z := z mod SIZE_MODULUS.

Definition is_size_t `{Platform} (z : Z) : Prop := 0 <= z < SIZE_MODULUS.

Definition size_add `{Platform} (a b : Z) : Z := to_size_t (a + b).
Definition size_sub `{Platform} (a b : Z) : Z := to_size_t (a - b).
Definition size_mul `{Platform} (a b : Z) : Z := to_size_t (a * b).
Definition size_not `{Platform} (a : Z) : Z := to_size_t (Z.lnot a).

(** [sizeof(float)] *)
Definition sizeof_float : Z := 4.

(** ** The base class [MemoryAllocator] *)

Module MemoryAllocator.

(** Modelled from the spec: the base class [MemoryAllocator] of the
    ExecuTorch runtime ([executorch/runtime/core/memory_allocator.h]) is not
    part of the sample's sources.  The spec gives an allocator a base
    address, a total capacity and a cursor: here the first address of the
    region, the address past its end and the next free address. *)
Record t := mk { begin_ : Z; end_ : Z; cur_ : Z }.

(** Modelled from the spec: the constructor [MemoryAllocator(size,
    base_address)], over a caller-supplied region, nothing consumed yet. *)
Definition make (size : Z) (base_address : Z) : t :=
  {| begin_ := base_address; end_ := base_address + size; cur_ := base_address |}.

(** Modelled from the spec: [size()], the total capacity in bytes. *)
Definition size (m : t) : Z := end_ m - begin_ m.

(** Modelled from the spec: the test that an alignment is a power of two. *)
Definition isPowerOf2 (value : Z) : bool :=
  (0 <? value) && (Z.land value (value - 1) =? 0).

(** Modelled from the spec: the aligned address of a request, the next
    multiple of [alignment] at or after [ptr]. *)
Definition alignPointer (ptr alignment : Z) : Z :=
  alignment * ((ptr + alignment - 1) / alignment).

(** Modelled from the spec: [MemoryAllocator::allocate(size, alignment)].
    The alignment is a power of two; the call returns the aligned address and
    leaves the cursor at the end of the request, or fails, returning null and
    changing nothing, when the remaining capacity cannot satisfy the aligned
    request. *)
Definition allocate (m : t) (size alignment : Z) : option Z * t :=
  if negb (isPowerOf2 alignment) then (None, m)
  else
    let start := alignPointer (cur_ m) alignment in
    let end' := start + size in
    if end_ m <? end' then (None, m)
    else (Some start, {| begin_ := begin_ m; end_ := end_ m; cur_ := end' |}).

End MemoryAllocator.

(** ** [ETMemoryAllocator] (et_memory_allocator.hpp) *)

Module ETMemoryAllocator.

Record t := mk { base : MemoryAllocator.t; used_ : Z }.

(** [ETMemoryAllocator(uint32_t size, uint8_t* base_address)] *)
Definition make (size : Z) (base_address : Z) : t :=
  {| base := MemoryAllocator.make size base_address; used_ := 0 |}.

(** [void* allocate(size_t size, size_t alignment)]: the returned pointer
    and the allocator after the call. *)
Definition allocate `{Platform} (m : t) (size alignment : Z) : option Z * t :=
  let '(ret, base') := MemoryAllocator.allocate (base m) size alignment in
  match ret with
  | Some _ =>
      if Z.land size (size_sub alignment 1) =? 0 then
        (ret, {| base := base'; used_ := size_add (used_ m) size |})
      else
        (ret, {| base := base';
                 used_ := size_add
                            (size_add (Z.land (used_ m) (size_not (size_sub alignment 1)))
                                      alignment)
                            size |})
  | None => (ret, {| base := base'; used_ := used_ m |})
  end.

Definition used_size (m : t) : Z := used_ m.

Definition free_size `{Platform} (m : t) : Z :=
  size_sub (MemoryAllocator.size (base m)) (used_ m).

(** A sequence of [allocate] calls, results discarded. *)
Fixpoint allocate_all `{Platform} (m : t) (reqs : list (Z * Z)) : t :=
  match reqs with
  | [] => m
  | (size, alignment) :: rest => allocate_all (snd (allocate m size alignment)) rest
  end.

End ETMemoryAllocator.

(** ** The runtime's interface (consumed, not reimplemented) *)

(** [executorch::runtime::Error].  The loader names [Ok], [InvalidState],
    [InvalidArgument] and [MemoryAllocationFailed]; every other code reaches
    it only as the result of a runtime call and is returned unchanged. *)
Inductive Error :=
  | Ok | Internal | InvalidState | EndOfMethod
  | NotSupported | NotImplemented | InvalidArgument | InvalidType | OperatorMissing
  | NotFound | MemoryAllocationFailed | AccessFailed | InvalidProgram.

#[global] Instance Error_eq_dec : EqDecision Error.
Proof. solve_decision. Defined.

(** [Result<T>]: a value or an error code. *)
Inductive Result (T : Type) :=
  | ResOk (v : T)
  | ResErr (e : Error).
Arguments ResOk {T} v.
Arguments ResErr {T} e.

Definition Result_ok {T} (r : Result T) : bool :=
  match r with ResOk _ => true | ResErr _ => false end.

(** [Result::error()].  A [Result] never holds [Error::Ok] as its error: one
    built from [Error::Ok] holds [Error::Internal]. *)
Definition Result_error {T} (r : Result T) : Error :=
  match r with
  | ResOk _ => Ok
  | ResErr Ok => Internal
  | ResErr e => e
  end.
Arguments Result_error {T} r : simpl never.

(** A [float] is only ever copied: its 32-bit pattern. *)
Definition float : Type := Z.

Inductive ScalarType := Byte | Char | Short | Int | Long | Half | Float | Double.

(** [TensorInfo]: what the method declares for one input. *)
Record TensorInfo := {
  ti_sizes : list Z;
  ti_dim_order : list Z;
  ti_nbytes : Z
}.

(** [TensorImpl(type, dim, sizes, data, dim_order)]: a view; [impl_data]
    stands for the elements the data pointer refers to. *)
Record TensorImpl := {
  impl_type : ScalarType;
  impl_dim : Z;
  impl_sizes : list Z;
  impl_data : list float;
  impl_dim_order : list Z
}.

(** [Tensor::numel()]: the product of the sizes. *)
Definition numel (t : TensorImpl) : Z := fold_right Z.mul 1 (impl_sizes t).

(** [EValue]: a tagged value. *)
Inductive EValue :=
  | EValue_None
  | EValue_Int (i : Z)
  | EValue_Double (bits : Z)
  | EValue_Bool (b : bool)
  | EValue_Tensor (t : TensorImpl).

Definition isTensor (v : EValue) : bool :=
  match v with EValue_Tensor _ => true | _ => false end.

(** [Span<uint8_t>]: a pointer and a length. *)
Record Span := { span_data : Z; span_size : Z }.

(** An allocation the runtime makes through the memory manager it was given:
    the only way it changes the loader's allocators. *)
Inductive AllocatorCall :=
  | MethodAllocate (size alignment : Z)
  | TempAllocate (size alignment : Z).

(** What a [MemoryManager] gives access to. *)
Record MemoryManager := {
  mm_method_allocator : ETMemoryAllocator.t;
  mm_planned_memory : list Span;
  mm_temp_allocator : ETMemoryAllocator.t
}.

Class RuntimeTypes := {
  Program : Type;
  MethodMeta : Type;
  MethodState : Type
}.

(** A loaded [Method]: its metadata, fixed by the program, and its state. *)
Record Method `{RuntimeTypes} := {
  method_meta : MethodMeta;
  method_state : MethodState
}.

(** The calls the loader makes into the runtime and the embedded model
    ([model_pte.h], generated at build time). *)
Class Runtime `{RuntimeTypes} := {
  model_pte : list Byte.byte;
  Program_load : list Byte.byte -> Result Program;
  Program_method_meta : Program -> string -> Result MethodMeta;
  num_memory_planned_buffers : MethodMeta -> Z;
  memory_planned_buffer_size : MethodMeta -> Z -> Result Z;
  input_tensor_meta : MethodMeta -> Z -> Result TensorInfo;
  Program_load_method :
    Program -> string -> MemoryManager -> Result MethodState * list AllocatorCall;
  Method_set_input : Method -> EValue -> Z -> Error * MethodState * list AllocatorCall;
  Method_execute : Method -> Error * MethodState * list AllocatorCall;
  Method_get_output : Method -> Z -> EValue
}.

(** Calls that act on the runtime, in the order they were made. *)
Inductive RuntimeCall :=
  | Call_runtime_init
  | Call_Program_load
  | Call_load_method
  | Call_set_input (input_index : Z)
  | Call_execute.

(** [std::memcpy] between two [float] buffers, [n] bytes. *)
Definition memcpy (dst src : list float) (n : Z) : list float :=
  let k := Z.to_nat (n / sizeof_float) in
  take k src ++ drop k dst.

(** ** [ProgramLoader] (program_loader.h, program_loader.cpp) *)

Module ProgramLoader.
Section Loader.
Context `{Platform} `{Runtime}.

(** The members of the class, the function-local statics of
    [createInputTensor] ([sizes_storage], [dim_order_storage],
    [tensor_impls]) and the calls made into the runtime so far. *)
Record t := mk {
  initialized_ : bool;
  method_allocator_ : option ETMemoryAllocator.t;
  temp_allocator_ : option ETMemoryAllocator.t;
  memory_manager_ : bool;
  planned_memory_ : option (list Span);
  program_ : option Program;
  method_ : option (Result Method);
  planned_buffers_ : list Z;
  planned_spans_ : list Span;
  sizes_storage : list (list Z);
  dim_order_storage : list (list Z);
  tensor_impls : list (option TensorImpl);
  calls_ : list RuntimeCall
}.

(** [ProgramLoader::ProgramLoader()] *)
Definition new : t :=
  {| initialized_ := false;
     method_allocator_ := None;
     temp_allocator_ := None;
     memory_manager_ := false;
     planned_memory_ := None;
     program_ := None;
     method_ := None;
     planned_buffers_ := [];
     planned_spans_ := [];
     sizes_storage := [[]; []];
     dim_order_storage := [[]; []];
     tensor_impls := [None; None];
     calls_ := [] |}.

(** Field updates. *)
Definition set_allocators (s : t) (ma ta : option ETMemoryAllocator.t) : t :=
  mk (initialized_ s) ma ta (memory_manager_ s) (planned_memory_ s)
     (program_ s) (method_ s) (planned_buffers_ s) (planned_spans_ s)
     (sizes_storage s) (dim_order_storage s) (tensor_impls s) (calls_ s).

Definition set_initialized (s : t) (b : bool) : t :=
  mk b (method_allocator_ s) (temp_allocator_ s) (memory_manager_ s) (planned_memory_ s)
     (program_ s) (method_ s) (planned_buffers_ s) (planned_spans_ s)
     (sizes_storage s) (dim_order_storage s) (tensor_impls s) (calls_ s).

Definition set_program (s : t) (p : option Program) : t :=
  mk (initialized_ s) (method_allocator_ s) (temp_allocator_ s) (memory_manager_ s)
     (planned_memory_ s) p (method_ s) (planned_buffers_ s) (planned_spans_ s)
     (sizes_storage s) (dim_order_storage s) (tensor_impls s) (calls_ s).

Definition set_method (s : t) (m : option (Result Method)) : t :=
  mk (initialized_ s) (method_allocator_ s) (temp_allocator_ s) (memory_manager_ s)
     (planned_memory_ s) (program_ s) m (planned_buffers_ s) (planned_spans_ s)
     (sizes_storage s) (dim_order_storage s) (tensor_impls s) (calls_ s).

Definition set_planned (s : t) (buffers : list Z) (spans : list Span) : t :=
  mk (initialized_ s) (method_allocator_ s) (temp_allocator_ s) (memory_manager_ s)
     (planned_memory_ s) (program_ s) (method_ s) buffers spans
     (sizes_storage s) (dim_order_storage s) (tensor_impls s) (calls_ s).

Definition set_memory_manager (s : t) (planned : option (list Span)) (mm : bool) : t :=
  mk (initialized_ s) (method_allocator_ s) (temp_allocator_ s) mm planned
     (program_ s) (method_ s) (planned_buffers_ s) (planned_spans_ s)
     (sizes_storage s) (dim_order_storage s) (tensor_impls s) (calls_ s).

Definition set_storage (s : t) (sizes dim_order : list (list Z))
    (impls : list (option TensorImpl)) : t :=
  mk (initialized_ s) (method_allocator_ s) (temp_allocator_ s) (memory_manager_ s)
     (planned_memory_ s) (program_ s) (method_ s) (planned_buffers_ s) (planned_spans_ s)
     sizes dim_order impls (calls_ s).

Definition record_call (s : t) (c : RuntimeCall) : t :=
  mk (initialized_ s) (method_allocator_ s) (temp_allocator_ s) (memory_manager_ s)
     (planned_memory_ s) (program_ s) (method_ s) (planned_buffers_ s) (planned_spans_ s)
     (sizes_storage s) (dim_order_storage s) (tensor_impls s) (calls_ s ++ [c]).

(** The runtime's own allocations, made through the two allocators. *)
Definition runtime_allocate (s : t) (c : AllocatorCall) : t :=
  match c with
  | MethodAllocate size alignment =>
      set_allocators s
        ((fun a => snd (ETMemoryAllocator.allocate a size alignment)) <$> method_allocator_ s)
        (temp_allocator_ s)
  | TempAllocate size alignment =>
      set_allocators s
        (method_allocator_ s)
        ((fun a => snd (ETMemoryAllocator.allocate a size alignment)) <$> temp_allocator_ s)
  end.

Definition runtime_allocations (s : t) (cs : list AllocatorCall) : t :=
  fold_left runtime_allocate cs s.

(** [bool isLoaded() const] *)
Definition isLoaded (s : t) : bool :=
  match method_ s with
  | Some r => Result_ok r
  | None => false
  end.

(** [method_->get()]; undefined on a null pointer or an error result. *)
Definition get_method (s : t) : option Method :=
  match method_ s with
  | Some (ResOk m) => Some m
  | _ => None
  end.

(** [void initialize()] *)
Definition initialize (s : t) : t :=
  if initialized_ s then s
  else
    let s := record_call s Call_runtime_init in
    let s := set_allocators s
               (Some (ETMemoryAllocator.make CONFIG_EXECUTORCH_METHOD_ALLOCATOR_POOL_SIZE
                                             method_allocation_pool))
               (temp_allocator_ s) in
    let s := set_allocators s
               (method_allocator_ s)
               (Some (ETMemoryAllocator.make CONFIG_EXECUTORCH_TEMP_ALLOCATOR_POOL_SIZE
                                             temp_allocation_pool)) in
    set_initialized s true.

(** The loop of [loadProgram] over the buffer ids still to allocate.
    [inl e]: the loop returned [e]; [inr s]: it ran to its end.
    [None]: a null allocator was dereferenced. *)
Fixpoint allocate_planned_buffers (method_meta : MethodMeta) (ids : list Z) (s : t)
    : option (Error * t + t) :=
  match ids with
  | [] => Some (inr s)
  | id :: ids =>
      match memory_planned_buffer_size method_meta id with
      | ResErr _ as buffer_size_result => Some (inl (Result_error buffer_size_result, s))
      | ResOk buffer_size =>
          let buffer_size := to_size_t buffer_size in
          a ← method_allocator_ s;
          let '(buffer, a) := ETMemoryAllocator.allocate a buffer_size kDefaultAlignment in
          let s := set_allocators s (Some a) (temp_allocator_ s) in
          match buffer with
          | None => Some (inl (MemoryAllocationFailed, s))
          | Some buffer =>
              let buffers := planned_buffers_ s ++ [buffer] in
              let spans := planned_spans_ s
                           ++ [{| span_data := buffer; span_size := buffer_size |}] in
              allocate_planned_buffers method_meta ids (set_planned s buffers spans)
          end
      end
  end.

(** The ids [0 .. n-1] of a [for (size_t id = 0; id < n; ++id)]. *)
Definition buffer_ids (n : Z) : list Z := Z.of_nat <$> seq 0 (Z.to_nat n).

(** [Error loadProgram()] *)
Definition loadProgram (s : t) : option (Error * t) :=
  if negb (initialized_ s) then Some (InvalidState, s)
  else
    let s := record_call s Call_Program_load in
    match Program_load model_pte with
    | ResErr _ as program_result => Some (Result_error program_result, s)
    | ResOk program =>
        let s := set_program s (Some program) in
        match Program_method_meta program "forward" with
        | ResErr _ as method_meta_result => Some (Result_error method_meta_result, s)
        | ResOk method_meta =>
            let num_memory_planned_buffers := num_memory_planned_buffers method_meta in
            let s := set_planned s [] [] in
            r ← allocate_planned_buffers method_meta
                  (buffer_ids num_memory_planned_buffers) s;
            match r with
            | inl (e, s) => Some (e, s)
            | inr s =>
                let s := set_memory_manager s (Some (planned_spans_ s)) true in
                ma ← method_allocator_ s;
                ta ← temp_allocator_ s;
                let '(method_result, allocations) :=
                  Program_load_method program "forward"
                    {| mm_method_allocator := ma;
                       mm_planned_memory := planned_spans_ s;
                       mm_temp_allocator := ta |} in
                let s := runtime_allocations (record_call s Call_load_method) allocations in
                match method_result with
                | ResErr _ => Some (Result_error method_result, s)
                | ResOk state =>
                    Some (Ok,
                          set_method s
                            (Some (ResOk {| method_meta := method_meta;
                                            method_state := state |})))
                end
            end
        end
    end.

(** The [TensorImpl] that [createInputTensor] builds over the caller's
    [data] from the metadata it copied. *)
Definition input_tensor (tensor_meta : TensorInfo) (data : list float) : TensorImpl :=
  {| impl_type := Float;
     impl_dim := Z.of_nat (length (ti_sizes tensor_meta));
     impl_sizes := ti_sizes tensor_meta;
     impl_data := data;
     impl_dim_order := ti_dim_order tensor_meta |}.

(** [Error createInputTensor(const float* data, size_t size, size_t input_index)] *)
Definition createInputTensor (s : t) (data : list float) (size input_index : Z)
    : option (Error * t) :=
  if negb (isLoaded s) then Some (InvalidState, s)
  else
    method ← get_method s;
    match input_tensor_meta (method_meta method) input_index with
    | ResErr _ as tensor_meta_result => Some (Result_error tensor_meta_result, s)
    | ResOk tensor_meta =>
        let expected_bytes := ti_nbytes tensor_meta in
        let provided_bytes := size_mul size sizeof_float in
        if negb (provided_bytes =? expected_bytes) then Some (InvalidArgument, s)
        else if 2 <=? input_index then Some (InvalidArgument, s)
        else
          let i := Z.to_nat input_index in
          let sizes := <[i := ti_sizes tensor_meta]> (sizes_storage s) in
          let dim_order := <[i := ti_dim_order tensor_meta]> (dim_order_storage s) in
          let impl := input_tensor tensor_meta data in
          let impls := <[i := Some impl]> (tensor_impls s) in
          let s := set_storage s sizes dim_order impls in
          let '(error, state, allocations) :=
            Method_set_input method (EValue_Tensor impl) input_index in
          let s := set_method (record_call s (Call_set_input input_index))
                     (Some (ResOk {| method_meta := method_meta method;
                                     method_state := state |})) in
          let s := runtime_allocations s allocations in
          if decide (error = Ok) then Some (Ok, s) else Some (error, s)
    end.

(** The loader once [method.execute()] has returned: the method carries its
    new state and the runtime's allocations have gone through the allocators. *)
Definition after_execute (s : t) (method : Method) (state : MethodState)
    (allocations : list AllocatorCall) : t :=
  runtime_allocations
    (set_method (record_call s Call_execute)
       (Some (ResOk {| method_meta := method_meta method; method_state := state |})))
    allocations.

(** [Error runInference(const float* input1, const float* input2,
    size_t input_size, float* output, size_t output_size)]: the status, the
    loader afterwards and the contents of the caller's [output] buffer. *)
Definition runInference (s : t) (input1 input2 : list float) (input_size : Z)
    (output : list float) (output_size : Z) : option (Error * t * list float) :=
  if negb (isLoaded s) then Some (InvalidState, s, output)
  else
    '(error, s) ← createInputTensor s input1 input_size 0;
    if decide (error = Ok) then
      '(error, s) ← createInputTensor s input2 input_size 1;
      if decide (error = Ok) then
        method ← get_method s;
        let '(error, state, allocations) := Method_execute method in
        let s := after_execute s method state allocations in
        let method := {| method_meta := method_meta method; method_state := state |} in
        if decide (error = Ok) then
          match Method_get_output method 0 with
          | EValue_Tensor output_tensor =>
              let expected_elements := to_size_t (numel output_tensor) in
              if output_size <? expected_elements then Some (InvalidArgument, s, output)
              else
                let output_data := impl_data output_tensor in
                Some (Ok, s,
                      memcpy output output_data (size_mul expected_elements sizeof_float))
          | _ => Some (InvalidArgument, s, output)
          end
        else Some (error, s, output)
      else Some (error, s, output)
    else Some (error, s, output).

End Loader.
End ProgramLoader.

(** ** Predicates of the statements *)

(** The used counter is not above the distance the cursor has covered, and
    the cursor is within the pool. *)
Definition used_within_cursor (m : ETMemoryAllocator.t) : Prop :=
  0 <= ETMemoryAllocator.used_ m
       <= MemoryAllocator.cur_ (ETMemoryAllocator.base m)
          - MemoryAllocator.begin_ (ETMemoryAllocator.base m) /\
  MemoryAllocator.cur_ (ETMemoryAllocator.base m)
    <= MemoryAllocator.end_ (ETMemoryAllocator.base m).

(** ** Concrete builds and runtimes to evaluate the model on *)

(** A 32-bit Cortex-M build with the default pool sizes. *)
Definition cortex_m : Platform := {|
  size_bits := 32;
  kDefaultAlignment := 4;
  CONFIG_EXECUTORCH_METHOD_ALLOCATOR_POOL_SIZE := 16 * 1024;
  CONFIG_EXECUTORCH_TEMP_ALLOCATOR_POOL_SIZE := 2 * 1024;
  method_allocation_pool := 0x20001000;
  temp_allocation_pool := 0x20005000
|}.

(** A runtime that answers from a script: what the embedded program declares
    and what each runtime call returns. *)
Record Script := {
  script_load : Result unit;
  script_method_meta : Result unit;
  script_planned_buffers : list (Result Z);
  script_input_tensor_meta : Z -> Result TensorInfo;
  script_load_method : Result unit * list AllocatorCall;
  script_set_input : Z -> Error * list AllocatorCall;
  script_execute : Error * list AllocatorCall;
  script_output : EValue
}.

Definition scripted_types : RuntimeTypes :=
  {| Program := unit; MethodMeta := unit; MethodState := list (Z * EValue) |}.
#[local] Existing Instance scripted_types.

Definition scripted (sc : Script) : @Runtime scripted_types := {|
  model_pte := [];
  Program_load := fun _ => script_load sc;
  Program_method_meta := fun _ _ => script_method_meta sc;
  num_memory_planned_buffers := fun _ => Z.of_nat (length (script_planned_buffers sc));
  memory_planned_buffer_size := fun _ id =>
    nth (Z.to_nat id) (script_planned_buffers sc) (ResErr InvalidArgument);
  input_tensor_meta := fun _ => script_input_tensor_meta sc;
  Program_load_method := fun _ _ _ =>
    (match fst (script_load_method sc) with
     | ResOk _ => ResOk []
     | ResErr e => ResErr e
     end, snd (script_load_method sc));
  Method_set_input := fun m v i =>
    (fst (script_set_input sc i), (i, v) :: @method_state scripted_types m,
     snd (script_set_input sc i));
  Method_execute := fun m =>
    (fst (script_execute sc), @method_state scripted_types m, snd (script_execute sc));
  Method_get_output := fun _ _ => script_output sc
|}.

(** One [float] per input, as the bundled addition model declares. *)
Definition one_float : TensorInfo :=
  {| ti_sizes := [1]; ti_dim_order := [0]; ti_nbytes := 4 |}.

Definition two_floats : TensorInfo :=
  {| ti_sizes := [2]; ti_dim_order := [0]; ti_nbytes := 8 |}.

(** A tensor of [data], one dimension. *)
Definition float_tensor (data : list float) : TensorImpl :=
  {| impl_type := Float; impl_dim := 1; impl_sizes := [Z.of_nat (length data)];
     impl_data := data; impl_dim_order := [0] |}.

(** The two-input addition model: two planned buffers, two inputs of one
    [float], the runtime allocating while it loads and while it executes, and
    [output_data] as the result of an execution. *)
Definition add_model (output_data : list float) : Script := {|
  script_load := ResOk tt;
  script_method_meta := ResOk tt;
  script_planned_buffers := [ResOk 48; ResOk 16];
  script_input_tensor_meta := fun i =>
    if (0 <=? i) && (i <? 2) then ResOk one_float else ResErr InvalidArgument;
  script_load_method := (ResOk tt, [MethodAllocate 200 8; MethodAllocate 36 4]);
  script_set_input := fun _ => (Ok, []);
  script_execute := (Ok, [TempAllocate 24 8]);
  script_output := EValue_Tensor (float_tensor output_data)
|}.

(** A model with a third input whose metadata the runtime cannot read. *)
Definition third_input_unreadable : Script := {|
  script_load := ResOk tt;
  script_method_meta := ResOk tt;
  script_planned_buffers := [ResOk 48];
  script_input_tensor_meta := fun i =>
    if (0 <=? i) && (i <? 2) then ResOk one_float
    else if i =? 2 then ResErr InvalidProgram
    else ResErr InvalidArgument;
  script_load_method := (ResOk tt, [MethodAllocate 200 8]);
  script_set_input := fun _ => (Ok, []);
  script_execute := (Ok, []);
  script_output := EValue_Tensor (float_tensor [0x40A00000])
|}.

(** A model whose inputs differ in length, in a method that refuses to bind
    its first input. *)
Definition first_input_refused : Script := {|
  script_load := ResOk tt;
  script_method_meta := ResOk tt;
  script_planned_buffers := [ResOk 48];
  script_input_tensor_meta := fun i =>
    if i =? 0 then ResOk one_float
    else if i =? 1 then ResOk two_floats
    else ResErr InvalidArgument;
  script_load_method := (ResOk tt, []);
  script_set_input := fun i => if i =? 0 then (InvalidState, []) else (Ok, []);
  script_execute := (Ok, []);
  script_output := EValue_Tensor (float_tensor [0x40A00000])
|}.

(** The loader a call leaves behind, and the method it holds. *)
Definition state_of (r : option (Error * @ProgramLoader.t scripted_types))
    : @ProgramLoader.t scripted_types :=
  match r with
  | Some (_, s) => s
  | None => ProgramLoader.new
  end.

Definition method_of (s : @ProgramLoader.t scripted_types) : @Method scripted_types :=
  match ProgramLoader.get_method s with
  | Some method => method
  | None => {| method_meta := tt; method_state := [] |}
  end.

(** The loader after [initialize()] and a [loadProgram()] that returned [Ok]
    (the loader as constructed if it did not). *)
Definition loaded (sc : Script) : @ProgramLoader.t scripted_types :=
  match @ProgramLoader.loadProgram cortex_m _ (scripted sc)
          (@ProgramLoader.initialize cortex_m _ ProgramLoader.new) with
  | Some (Ok, s) => s
  | _ => ProgramLoader.new
  end.

(** A method whose execution fails. *)
Definition execute_fails : Script := {|
  script_load := ResOk tt;
  script_method_meta := ResOk tt;
  script_planned_buffers := [ResOk 48];
  script_input_tensor_meta := fun i =>
    if (0 <=? i) && (i <? 2) then ResOk one_float else ResErr InvalidArgument;
  script_load_method := (ResOk tt, [MethodAllocate 200 8]);
  script_set_input := fun _ => (Ok, []);
  script_execute := (OperatorMissing, [TempAllocate 24 8]);
  script_output := EValue_None
|}.

(** A method whose output 0 is an integer. *)
Definition output_not_tensor : Script := {|
  script_load := ResOk tt;
  script_method_meta := ResOk tt;
  script_planned_buffers := [ResOk 48];
  script_input_tensor_meta := fun i =>
    if (0 <=? i) && (i <? 2) then ResOk one_float else ResErr InvalidArgument;
  script_load_method := (ResOk tt, [MethodAllocate 200 8]);
  script_set_input := fun _ => (Ok, []);
  script_execute := (Ok, []);
  script_output := EValue_Int 5
|}.

(** A program whose planned buffer takes more than half of the method pool:
    it loads once, and a second load finds the pool exhausted. *)
Definition large_plan : Script := {|
  script_load := ResOk tt;
  script_method_meta := ResOk tt;
  script_planned_buffers := [ResOk 10000];
  script_input_tensor_meta := fun i =>
    if (0 <=? i) && (i <? 2) then ResOk one_float else ResErr InvalidArgument;
  script_load_method := (ResOk tt, []);
  script_set_input := fun _ => (Ok, []);
  script_execute := (Ok, []);
  script_output := EValue_Tensor (float_tensor [0x40A00000])
|}.

(** A program that declares a planned buffer of [2^32 + 16] bytes. *)
Definition oversized_plan : Script := {|
  script_load := ResOk tt;
  script_method_meta := ResOk tt;
  script_planned_buffers := [ResOk (2 ^ 32 + 16)];
  script_input_tensor_meta := fun i =>
    if (0 <=? i) && (i <? 2) then ResOk one_float else ResErr InvalidArgument;
  script_load_method := (ResOk tt, []);
  script_set_input := fun _ => (Ok, []);
  script_execute := (Ok, []);
  script_output := EValue_Tensor (float_tensor [0x40A00000])
|}.

(** What a call returned, with a default where the call is undefined. *)
Definition inference_of (r : option (Error * @ProgramLoader.t scripted_types * list float))
    : Error * @ProgramLoader.t scripted_types * list float :=
  match r with
  | Some r => r
  | None => (InvalidState, ProgramLoader.new, [])
  end.

Definition load_of (r : option (Error * @ProgramLoader.t scripted_types))
    : Error * @ProgramLoader.t scripted_types :=
  match r with
  | Some r => r
  | None => (InvalidState, ProgramLoader.new)
  end.

(** ** The loaders a program can reach, and what they keep *)

(** The base allocator alone over a sequence of requests, results discarded:
    what [ETMemoryAllocator.allocate_all] does without the counter. *)
Fixpoint base_allocate_all (m : MemoryAllocator.t) (reqs : list (Z * Z)) : MemoryAllocator.t :=
  match reqs with
  | [] => m
  | (size, alignment) :: rest =>
      base_allocate_all (snd (MemoryAllocator.allocate m size alignment)) rest
  end.

(** The used counter of an allocator, when there is one, is a [size_t]. *)
Definition counter_in_range `{Platform} (a : option ETMemoryAllocator.t) : Prop :=
  forall m, a = Some m -> is_size_t (ETMemoryAllocator.used_ m).

Section Reachable.
Context `{Platform} `{Runtime}.

(** The loaders a program obtains from the constructor through the public
    member functions. *)
Inductive reachable : ProgramLoader.t -> Prop :=
  | reachable_new : reachable ProgramLoader.new
  | reachable_initialize (s : ProgramLoader.t) :
      reachable s -> reachable (ProgramLoader.initialize s)
  | reachable_loadProgram (s s' : ProgramLoader.t) (e : Error) :
      reachable s -> ProgramLoader.loadProgram s = Some (e, s') -> reachable s'
  | reachable_runInference (s s' : ProgramLoader.t) (e : Error)
      (input1 input2 : list float) (input_size : Z)
      (output output' : list float) (output_size : Z) :
      reachable s ->
      ProgramLoader.runInference s input1 input2 input_size output output_size
        = Some (e, s', output') ->
      reachable s'.

(** What every reachable loader satisfies: an initialized loader has both
    allocators, their counters are [size_t] values, a loaded method comes with
    an initialized loader, a program and a memory manager, span [i] points at
    buffer [i], and the slot-indexed storage has its two slots. *)
Definition well_formed (s : ProgramLoader.t) : Prop :=
  (ProgramLoader.initialized_ s = true ->
   is_Some (ProgramLoader.method_allocator_ s) /\
   is_Some (ProgramLoader.temp_allocator_ s)) /\
  counter_in_range (ProgramLoader.method_allocator_ s) /\
  counter_in_range (ProgramLoader.temp_allocator_ s) /\
  (ProgramLoader.isLoaded s = true ->
   ProgramLoader.initialized_ s = true /\
   is_Some (ProgramLoader.program_ s) /\
   ProgramLoader.memory_manager_ s = true /\
   is_Some (ProgramLoader.planned_memory_ s)) /\
  span_data <$> ProgramLoader.planned_spans_ s = ProgramLoader.planned_buffers_ s /\
  length (ProgramLoader.sizes_storage s) = 2%nat /\
  length (ProgramLoader.dim_order_storage s) = 2%nat /\
  length (ProgramLoader.tensor_impls s) = 2%nat.

(** The loader once [set_input] has returned for slot [input_index]: the
    slot holds the copied metadata and the tensor, the method carries its new
    state and the runtime's allocations have gone through the allocators. *)
Definition after_set_input (s : ProgramLoader.t) (tensor_meta : TensorInfo)
    (data : list float) (input_index : Z) (method : Method) (state : MethodState)
    (allocations : list AllocatorCall) : ProgramLoader.t :=
  ProgramLoader.runtime_allocations
    (ProgramLoader.set_method
       (ProgramLoader.record_call
          (ProgramLoader.set_storage s
             (<[Z.to_nat input_index := ti_sizes tensor_meta]> (ProgramLoader.sizes_storage s))
             (<[Z.to_nat input_index := ti_dim_order tensor_meta]>
                (ProgramLoader.dim_order_storage s))
             (<[Z.to_nat input_index := Some (ProgramLoader.input_tensor tensor_meta data)]>
                (ProgramLoader.tensor_impls s)))
          (Call_set_input input_index))
       (Some (ResOk {| method_meta := method_meta method; method_state := state |})))
    allocations.

(** The loader once [load_method] has returned: the planned memory and the
    memory manager are built over the spans, and the runtime's allocations
    have gone through the allocators. *)
Definition after_load_method (s : ProgramLoader.t) (allocations : list AllocatorCall)
    : ProgramLoader.t :=
  ProgramLoader.runtime_allocations
    (ProgramLoader.record_call
       (ProgramLoader.set_memory_manager s (Some (ProgramLoader.planned_spans_ s)) true)
       Call_load_method)
    allocations.

(** The five ways through [loadProgram]. *)
Inductive load_path (s : ProgramLoader.t) : Error -> ProgramLoader.t -> Prop :=
  | load_not_initialized :
      ProgramLoader.initialized_ s = false ->
      load_path s InvalidState s
  | load_program_failed (e : Error) :
      ProgramLoader.initialized_ s = true ->
      Program_load model_pte = ResErr e ->
      load_path s (Result_error (@ResErr Program e))
        (ProgramLoader.record_call s Call_Program_load)
  | load_method_meta_failed (program : Program) (e : Error) :
      ProgramLoader.initialized_ s = true ->
      Program_load model_pte = ResOk program ->
      Program_method_meta program "forward" = ResErr e ->
      load_path s (Result_error (@ResErr MethodMeta e))
        (ProgramLoader.set_program (ProgramLoader.record_call s Call_Program_load)
           (Some program))
  | load_buffers_failed (program : Program) (method_meta : MethodMeta) (e : Error)
      (s_loop : ProgramLoader.t) :
      ProgramLoader.initialized_ s = true ->
      Program_load model_pte = ResOk program ->
      Program_method_meta program "forward" = ResOk method_meta ->
      ProgramLoader.allocate_planned_buffers method_meta
        (ProgramLoader.buffer_ids (num_memory_planned_buffers method_meta))
        (ProgramLoader.set_planned
           (ProgramLoader.set_program (ProgramLoader.record_call s Call_Program_load)
              (Some program)) [] [])
        = Some (inl (e, s_loop)) ->
      load_path s e s_loop
  | load_method_called (program : Program) (method_meta : MethodMeta)
      (s_loop : ProgramLoader.t) (ma ta : ETMemoryAllocator.t)
      (method_result : Result MethodState) (allocations : list AllocatorCall) :
      ProgramLoader.initialized_ s = true ->
      Program_load model_pte = ResOk program ->
      Program_method_meta program "forward" = ResOk method_meta ->
      ProgramLoader.allocate_planned_buffers method_meta
        (ProgramLoader.buffer_ids (num_memory_planned_buffers method_meta))
        (ProgramLoader.set_planned
           (ProgramLoader.set_program (ProgramLoader.record_call s Call_Program_load)
              (Some program)) [] [])
        = Some (inr s_loop) ->
      ProgramLoader.method_allocator_ s_loop = Some ma ->
      ProgramLoader.temp_allocator_ s_loop = Some ta ->
      Program_load_method program "forward"
        {| mm_method_allocator := ma;
           mm_planned_memory := ProgramLoader.planned_spans_ s_loop;
           mm_temp_allocator := ta |}
        = (method_result, allocations) ->
      load_path s (Result_error method_result)
        match method_result with
        | ResOk state =>
            ProgramLoader.set_method (after_load_method s_loop allocations)
              (Some (ResOk {| method_meta := method_meta; method_state := state |}))
        | ResErr _ => after_load_method s_loop allocations
        end.

(** The four ways through [runInference]. *)
Inductive inference_path (s : ProgramLoader.t) (input1 input2 : list float) (input_size : Z)
    (output : list float) (output_size : Z) : Error -> ProgramLoader.t -> list float -> Prop :=
  | path_not_loaded :
      ProgramLoader.isLoaded s = false ->
      inference_path s input1 input2 input_size output output_size InvalidState s output
  | path_first_input (e : Error) (s1 : ProgramLoader.t) :
      ProgramLoader.createInputTensor s input1 input_size 0 = Some (e, s1) ->
      e <> Ok ->
      inference_path s input1 input2 input_size output output_size e s1 output
  | path_second_input (e : Error) (s1 s2 : ProgramLoader.t) :
      ProgramLoader.createInputTensor s input1 input_size 0 = Some (Ok, s1) ->
      ProgramLoader.createInputTensor s1 input2 input_size 1 = Some (e, s2) ->
      e <> Ok ->
      inference_path s input1 input2 input_size output output_size e s2 output
  | path_executed (e e0 : Error) (s1 s2 : ProgramLoader.t) (method : Method) (state : MethodState)
      (allocations : list AllocatorCall) (output' : list float) :
      ProgramLoader.createInputTensor s input1 input_size 0 = Some (Ok, s1) ->
      ProgramLoader.createInputTensor s1 input2 input_size 1 = Some (Ok, s2) ->
      ProgramLoader.get_method s2 = Some method ->
      Method_execute method = (e0, state, allocations) ->
      (e, output') =
        (if decide (e0 = Ok) then
           match Method_get_output
                   {| method_meta := method_meta method; method_state := state |} 0 with
           | EValue_Tensor output_tensor =>
               if output_size <? to_size_t (numel output_tensor)
               then (InvalidArgument, output)
               else (Ok, memcpy output (impl_data output_tensor)
                           (size_mul (to_size_t (numel output_tensor)) sizeof_float))
           | _ => (InvalidArgument, output)
           end
         else (e0, output)) ->
      inference_path s input1 input2 input_size output output_size e
        (ProgramLoader.after_execute s2 method state allocations) output'.

(** ** [main] (main.cpp) *)

(** [int main(void)], given what the uninitialized [float output[1]] holds.
    The singleton [ProgramLoader::getInstance()] is the loader as constructed.
    The inputs are 2.0 and 3.0; [output[0] == 5.0f] holds exactly of the one
    pattern of 5.0. *)
Definition main (uninitialized : float) : option Z :=
  let loader := ProgramLoader.initialize ProgramLoader.new in
  '(error, loader) ← ProgramLoader.loadProgram loader;
  if decide (error = Ok) then
    let input1 := [0x40000000] in
    let input2 := [0x40400000] in
    let output := [uninitialized] in
    '(error, loader, output) ← ProgramLoader.runInference loader input1 input2 1 output 1;
    if decide (error = Ok) then
      output0 ← output !! 0%nat;
      if output0 =? 0x40A00000 then Some 0 else Some (-1)
    else Some (-1)
  else Some (-1).

End Reachable.

(** * Properties *)

(** ** [size_t] arithmetic and masks *)

Lemma SIZE_MODULUS_pos `{Platform} : 0 < SIZE_MODULUS.
Proof. unfold SIZE_MODULUS. apply Z.pow_pos_nonneg; lia. Qed.

Lemma to_size_t_small `{Platform} (z : Z) : is_size_t z -> to_size_t z = z.
Proof. intros Hz. apply Z.mod_small. exact Hz. Qed.

Lemma to_size_t_range `{Platform} (z : Z) : is_size_t (to_size_t z).
Proof. apply Z.mod_pos_bound, SIZE_MODULUS_pos. Qed.

Lemma size_add_assoc `{Platform} (a b c : Z) :
  size_add (size_add a b) c = to_size_t (a + b + c).
Proof. unfold size_add, to_size_t. apply Zplus_mod_idemp_l. Qed.

(** A positive value with [value & (value - 1) == 0] is a power of two. *)
Lemma isPowerOf2_pow (a : Z) :
  MemoryAllocator.isPowerOf2 a = true -> exists k, 0 <= k /\ a = 2 ^ k.
Proof.
  unfold MemoryAllocator.isPowerOf2.
  intros [Hpos%Z.ltb_lt Hland%Z.eqb_eq]%andb_prop.
  exists (Z.log2 a). split; [apply Z.log2_nonneg|].
  destruct (Z.log2_spec a Hpos) as [Hlo Hhi].
  destruct (Z.eq_dec a (2 ^ Z.log2 a)) as [|Hne]; [assumption|exfalso].
  assert (Hk : Z.log2 (a - 1) = Z.log2 a).
  { apply Z.log2_unique; [apply Z.log2_nonneg|]. rewrite <- Z.add_1_r in *. lia. }
  assert (Hb1 : Z.testbit a (Z.log2 a) = true) by (apply Z.bit_log2; lia).
  assert (Hb2 : Z.testbit (a - 1) (Z.log2 a) = true).
  { rewrite <- Hk. apply Z.bit_log2.
    pose proof (Z.pow_pos_nonneg 2 (Z.log2 a) ltac:(lia) (Z.log2_nonneg a)). lia. }
  assert (Hb : Z.testbit (Z.land a (a - 1)) (Z.log2 a) = true).
  { rewrite Z.land_spec, Hb1, Hb2. reflexivity. }
  rewrite Hland, Z.bits_0 in Hb. discriminate.
Qed.

(** [x & (2^k - 1)] is [x mod 2^k]. *)
Lemma land_low_mask (k x : Z) : 0 <= k -> Z.land x (2 ^ k - 1) = x mod 2 ^ k.
Proof.
  intros Hk. replace (2 ^ k - 1) with (Z.ones k) by (rewrite Z.ones_equiv; lia).
  apply Z.land_ones; assumption.
Qed.

(** [x & ~(2^k - 1)] on [w] bits clears the low [k] bits of [x]. *)
Lemma land_high_mask (w k x : Z) :
  0 <= k -> 0 <= w -> 0 <= x < 2 ^ w ->
  Z.land x (Z.lnot (2 ^ k - 1) mod 2 ^ w) = 2 ^ k * (x / 2 ^ k).
Proof.
  intros Hk Hw Hx.
  rewrite <- (Z.land_ones _ w) by assumption.
  rewrite (Z.land_comm (Z.lnot _)), Z.land_assoc.
  rewrite (Z.land_ones x w) by assumption.
  rewrite Z.mod_small by assumption.
  replace (2 ^ k - 1) with (Z.ones k) by (rewrite Z.ones_equiv; lia).
  rewrite <- Z.ldiff_land, Z.ldiff_ones_r by assumption.
  rewrite Z.shiftl_mul_pow2, Z.shiftr_div_pow2 by assumption. lia.
Qed.

(** ** The base allocator *)

Lemma MemoryAllocator_allocate_None (m m' : MemoryAllocator.t) (size alignment : Z) :
  MemoryAllocator.allocate m size alignment = (None, m') -> m' = m.
Proof.
  unfold MemoryAllocator.allocate.
  destruct (negb _); [congruence|].
  destruct (_ <? _); congruence.
Qed.

Lemma MemoryAllocator_allocate_Some (m m' : MemoryAllocator.t) (size alignment p : Z) :
  MemoryAllocator.allocate m size alignment = (Some p, m') ->
  MemoryAllocator.isPowerOf2 alignment = true /\
  p = MemoryAllocator.alignPointer (MemoryAllocator.cur_ m) alignment /\
  MemoryAllocator.cur_ m' = p + size /\
  p + size <= MemoryAllocator.end_ m /\
  MemoryAllocator.begin_ m' = MemoryAllocator.begin_ m /\
  MemoryAllocator.end_ m' = MemoryAllocator.end_ m.
Proof.
  unfold MemoryAllocator.allocate.
  destruct (MemoryAllocator.isPowerOf2 alignment); simpl; [|congruence].
  destruct (_ <? _) eqn:Hfit; [congruence|].
  apply Z.ltb_ge in Hfit.
  intros [= <- <-]. simpl. repeat split; auto.
Qed.

(** ** [ETMemoryAllocator::allocate] *)

Lemma ETMemoryAllocator_allocate_Some `{Platform}
    (m m' : ETMemoryAllocator.t) (size alignment p : Z) :
  ETMemoryAllocator.allocate m size alignment = (Some p, m') ->
  exists base',
    MemoryAllocator.allocate (ETMemoryAllocator.base m) size alignment = (Some p, base') /\
    ETMemoryAllocator.base m' = base' /\
    ETMemoryAllocator.used_ m' =
      if Z.land size (size_sub alignment 1) =? 0
      then size_add (ETMemoryAllocator.used_ m) size
      else size_add
             (size_add (Z.land (ETMemoryAllocator.used_ m)
                               (size_not (size_sub alignment 1))) alignment) size.
Proof.
  unfold ETMemoryAllocator.allocate.
  destruct (MemoryAllocator.allocate _ _ _) as [[q|] base'] eqn:Hbase; [|congruence].
  intros Hcall. exists base'.
  destruct (_ =? 0); injection Hcall as <- <-; auto.
Qed.

Lemma ETMemoryAllocator_allocate_None `{Platform}
    (m m' : ETMemoryAllocator.t) (size alignment : Z) :
  ETMemoryAllocator.allocate m size alignment = (None, m') -> m' = m.
Proof.
  unfold ETMemoryAllocator.allocate.
  destruct (MemoryAllocator.allocate _ _ _) as [[q|] base'] eqn:Hbase.
  - destruct (_ =? 0); discriminate.
  - apply MemoryAllocator_allocate_None in Hbase as ->.
    intros [= <-]. destruct m; reflexivity.
Qed.

(** C1 (as amended).  A call [allocate(size, alignment)] that returns a
    non-null pointer adds exactly [size] to [used_size()] when [size] is a
    multiple of [alignment]; otherwise it rounds the used counter DOWN to a
    multiple of [alignment] and adds a full alignment unit plus [size] to
    that.  Both sums are taken in [size_t]. *)
Theorem allocate_used_size_rule `{Platform}
    (m m' : ETMemoryAllocator.t) (size alignment p : Z) :
  is_size_t size -> is_size_t alignment -> is_size_t (ETMemoryAllocator.used_size m) ->
  ETMemoryAllocator.allocate m size alignment = (Some p, m') ->
  (size mod alignment = 0 ->
   ETMemoryAllocator.used_size m' = to_size_t (ETMemoryAllocator.used_size m + size)) /\
  (size mod alignment <> 0 ->
   ETMemoryAllocator.used_size m' =
     to_size_t (alignment * (ETMemoryAllocator.used_size m / alignment) + alignment + size)).
Proof.
  unfold ETMemoryAllocator.used_size.
  intros Hsize Halign Hused Hcall.
  apply ETMemoryAllocator_allocate_Some in Hcall as (base' & Hbase & _ & Hnew).
  apply MemoryAllocator_allocate_Some in Hbase as (Hpow & _).
  apply isPowerOf2_pow in Hpow as (k & Hk & ->).
  assert (Hpos : 0 < 2 ^ k) by (apply Z.pow_pos_nonneg; lia).
  assert (Hmask : size_sub (2 ^ k) 1 = 2 ^ k - 1).
  { unfold size_sub. apply to_size_t_small. unfold is_size_t in *. lia. }
  rewrite Hmask, land_low_mask in Hnew by assumption.
  unfold size_not, to_size_t, SIZE_MODULUS in Hnew.
  rewrite land_high_mask in Hnew by (try exact Hused; lia).
  fold SIZE_MODULUS in Hnew. fold (to_size_t (Z.lnot (2 ^ k - 1))) in Hnew.
  split; intros Hmod.
  - rewrite Hmod in Hnew. simpl in Hnew. exact Hnew.
  - apply Z.eqb_neq in Hmod. rewrite Hmod in Hnew.
    rewrite Hnew. apply size_add_assoc.
Qed.

Lemma allocate_used_size_rule_witness :
  let m := snd (@ETMemoryAllocator.allocate cortex_m (ETMemoryAllocator.make 64 0x1000) 1 8) in
  let m' := snd (@ETMemoryAllocator.allocate cortex_m m 12 4) in
  let m'' := snd (@ETMemoryAllocator.allocate cortex_m m' 1 8) in
  (@is_size_t cortex_m 12 /\ @is_size_t cortex_m 4 /\
   @is_size_t cortex_m (ETMemoryAllocator.used_size m) /\
   @ETMemoryAllocator.allocate cortex_m m 12 4 = (Some 0x1004, m') /\
   12 mod 4 = 0 /\
   ETMemoryAllocator.used_size m' = @to_size_t cortex_m (9 + 12)) /\
  (@is_size_t cortex_m 1 /\ @is_size_t cortex_m 8 /\
   @is_size_t cortex_m (ETMemoryAllocator.used_size m') /\
   @ETMemoryAllocator.allocate cortex_m m' 1 8 = (Some 0x1010, m'') /\
   1 mod 8 <> 0 /\
   ETMemoryAllocator.used_size m'' = @to_size_t cortex_m (8 * (21 / 8) + 8 + 1)).
Proof.
  intros m m' m''.
  assert (Hrange : forall z, 0 <= z < 2 ^ 32 -> @is_size_t cortex_m z) by (intros z Hz; exact Hz).
  assert (H12 : @is_size_t cortex_m 12) by (apply Hrange; lia).
  assert (H4 : @is_size_t cortex_m 4) by (apply Hrange; lia).
  assert (H1 : @is_size_t cortex_m 1) by (apply Hrange; lia).
  assert (H8 : @is_size_t cortex_m 8) by (apply Hrange; lia).
  assert (Hm : @is_size_t cortex_m (ETMemoryAllocator.used_size m))
    by (apply Hrange; vm_compute; split; [discriminate | reflexivity]).
  assert (Hm' : @is_size_t cortex_m (ETMemoryAllocator.used_size m'))
    by (apply Hrange; vm_compute; split; [discriminate | reflexivity]).
  assert (Hcall : @ETMemoryAllocator.allocate cortex_m m 12 4 = (Some 0x1004, m'))
    by (vm_compute; reflexivity).
  assert (Hcall' : @ETMemoryAllocator.allocate cortex_m m' 1 8 = (Some 0x1010, m''))
    by (vm_compute; reflexivity).
  assert (Hodd : 1 mod 8 <> 0) by (vm_compute; discriminate).
  split.
  - refine (conj H12 (conj H4 (conj Hm (conj Hcall (conj eq_refl _))))).
    exact (proj1 (@allocate_used_size_rule cortex_m m m' 12 4 0x1004 H12 H4 Hm Hcall) eq_refl).
  - refine (conj H1 (conj H8 (conj Hm' (conj Hcall' (conj Hodd _))))).
    exact (proj2 (@allocate_used_size_rule cortex_m m' m'' 1 8 0x1010 H1 H8 Hm' Hcall') Hodd).
Defined.

(** C1 (as stated) fails: a second [allocate(1, 8)] on a fresh allocator finds
    the used counter at 9 and leaves it at 17, the counter rounded down to 8
    plus 8 plus 1; rounding it up to the alignment boundary first would
    give 16 + 8 + 1 = 25. *)
Lemma allocate_used_not_rounded_up :
  let m := snd (@ETMemoryAllocator.allocate cortex_m (ETMemoryAllocator.make 64 0x1000) 1 8) in
  let r := @ETMemoryAllocator.allocate cortex_m m 1 8 in
  fst r = Some 0x1008 /\
  1 mod 8 <> 0 /\
  ETMemoryAllocator.used_size m = 9 /\
  ETMemoryAllocator.used_size (snd r) = 17 /\
  @to_size_t cortex_m
    (MemoryAllocator.alignPointer (ETMemoryAllocator.used_size m) 8 + 8 + 1) = 25 /\
  ETMemoryAllocator.used_size (snd r) <>
    @to_size_t cortex_m
      (MemoryAllocator.alignPointer (ETMemoryAllocator.used_size m) 8 + 8 + 1).
Proof. vm_compute. repeat split; discriminate. Qed.

(** The next multiple of a positive alignment is not below the pointer. *)
Lemma alignPointer_ge (ptr alignment : Z) :
  0 < alignment -> ptr <= MemoryAllocator.alignPointer ptr alignment.
Proof.
  intros Hpos. unfold MemoryAllocator.alignPointer.
  pose proof (Z.div_mod (ptr + alignment - 1) alignment ltac:(lia)) as Hdiv.
  pose proof (Z.mod_pos_bound (ptr + alignment - 1) alignment Hpos) as Hmod.
  lia.
Qed.

(** A request whose size is a multiple of its alignment keeps the used
    counter within the distance the cursor has covered, and the cursor within
    the pool. *)
Lemma allocate_aligned_step `{Platform} (m : ETMemoryAllocator.t) (size alignment : Z) :
  is_size_t size -> is_size_t alignment -> size mod alignment = 0 ->
  used_within_cursor m ->
  used_within_cursor (snd (ETMemoryAllocator.allocate m size alignment)) /\
  MemoryAllocator.size (ETMemoryAllocator.base (snd (ETMemoryAllocator.allocate m size alignment)))
    = MemoryAllocator.size (ETMemoryAllocator.base m).
Proof.
  intros Hsize Halign Hmod [Hused Hcur].
  destruct (ETMemoryAllocator.allocate m size alignment) as [[p|] m'] eqn:Hcall.
  - apply ETMemoryAllocator_allocate_Some in Hcall as (base' & Hbase & Hbase' & Hnew).
    apply MemoryAllocator_allocate_Some in Hbase
      as (Hpow & Hp & Hcur' & Hend & Hbegin_eq & Hend_eq).
    apply isPowerOf2_pow in Hpow as (k & Hk & ->).
    assert (Hpos : 0 < 2 ^ k) by (apply Z.pow_pos_nonneg; lia).
    assert (Hmask : size_sub (2 ^ k) 1 = 2 ^ k - 1).
    { unfold size_sub. apply to_size_t_small. unfold is_size_t in *. lia. }
    rewrite Hmask, land_low_mask, Hmod in Hnew by assumption. simpl in Hnew.
    pose proof (alignPointer_ge (MemoryAllocator.cur_ (ETMemoryAllocator.base m)) _ Hpos).
    pose proof SIZE_MODULUS_pos.
    assert (Hle : size_add (ETMemoryAllocator.used_ m) size
                  <= ETMemoryAllocator.used_ m + size).
    { unfold size_add, to_size_t. apply Z.mod_le; unfold is_size_t in *; lia. }
    assert (Hge : 0 <= size_add (ETMemoryAllocator.used_ m) size).
    { unfold size_add, to_size_t. apply Z.mod_pos_bound. assumption. }
    unfold used_within_cursor, MemoryAllocator.size. simpl.
    rewrite Hbase', Hnew, Hcur', Hbegin_eq, Hend_eq.
    unfold is_size_t in *. lia.
  - apply ETMemoryAllocator_allocate_None in Hcall as ->. simpl.
    split; [split; assumption | reflexivity].
Qed.

Lemma allocate_all_aligned `{Platform} (reqs : list (Z * Z)) (m : ETMemoryAllocator.t) :
  Forall (fun r => is_size_t r.1 /\ is_size_t r.2 /\ r.1 mod r.2 = 0) reqs ->
  used_within_cursor m ->
  used_within_cursor (ETMemoryAllocator.allocate_all m reqs) /\
  MemoryAllocator.size (ETMemoryAllocator.base (ETMemoryAllocator.allocate_all m reqs))
    = MemoryAllocator.size (ETMemoryAllocator.base m).
Proof.
  intros Hreqs. revert m.
  induction Hreqs as [|[size alignment] reqs (Hsize & Halign & Hmod) _ IH]; intros m Hm.
  - simpl. auto.
  - simpl in *.
    destruct (allocate_aligned_step m size alignment Hsize Halign Hmod Hm) as [Hm' Hcap].
    destruct (IH _ Hm') as [Hfinal Hcap']. split; [exact Hfinal | congruence].
Qed.

(** C2 (as amended).  On an allocator constructed with capacity [C], after
    every call of a sequence of [allocate] calls in which each request's size
    is a multiple of its alignment, [used_size() <= C] holds, whether the
    call succeeded or failed. *)
Theorem used_size_within_capacity `{Platform}
    (capacity base_address : Z) (reqs : list (Z * Z)) (n : nat) :
  0 <= capacity ->
  Forall (fun r => is_size_t r.1 /\ is_size_t r.2 /\ r.1 mod r.2 = 0) reqs ->
  0 <= ETMemoryAllocator.used_size
         (ETMemoryAllocator.allocate_all
            (ETMemoryAllocator.make capacity base_address) (take n reqs))
    <= capacity.
Proof.
  intros Hcapacity Hreqs.
  assert (Hfresh : used_within_cursor (ETMemoryAllocator.make capacity base_address)).
  { unfold used_within_cursor. simpl. lia. }
  destruct (allocate_all_aligned (take n reqs) _ (Forall_take _ n _ Hreqs) Hfresh)
    as [[Hused Hcur] Hsame].
  unfold MemoryAllocator.size in Hsame. simpl in Hsame.
  unfold ETMemoryAllocator.used_size. lia.
Qed.

Lemma used_size_within_capacity_witness :
  let reqs := [(16, 8); (12, 4); (64, 4); (8, 8)] in
  0 <= 64 /\
  Forall (fun r => @is_size_t cortex_m r.1 /\ @is_size_t cortex_m r.2 /\ r.1 mod r.2 = 0)
         reqs /\
  ETMemoryAllocator.used_size
    (@ETMemoryAllocator.allocate_all cortex_m (ETMemoryAllocator.make 64 0x1000) reqs) = 36 /\
  0 <= ETMemoryAllocator.used_size
         (@ETMemoryAllocator.allocate_all cortex_m
            (ETMemoryAllocator.make 64 0x1000) (take 4 reqs))
    <= 64.
Proof.
  intros reqs.
  assert (Hcapacity : 0 <= 64) by lia.
  assert (Hreqs : Forall (fun r => @is_size_t cortex_m r.1 /\ @is_size_t cortex_m r.2 /\
                                   r.1 mod r.2 = 0) reqs).
  { repeat constructor; vm_compute; congruence. }
  refine (conj Hcapacity (conj Hreqs (conj eq_refl _))).
  exact (@used_size_within_capacity cortex_m 64 0x1000 reqs 4 Hcapacity Hreqs).
Defined.

(** C2 (as stated) fails: on an allocator of capacity 8, one [allocate(1, 8)]
    succeeds and leaves [used_size()] at 9, above the capacity, and
    [free_size()], computed as [size() - used_] in [size_t], at [2^32 - 1]. *)
Lemma used_size_exceeds_capacity :
  let m := ETMemoryAllocator.make 8 0x1000 in
  let r := @ETMemoryAllocator.allocate cortex_m m 1 8 in
  fst r = Some 0x1000 /\
  MemoryAllocator.size (ETMemoryAllocator.base (snd r)) = 8 /\
  ETMemoryAllocator.used_size (snd r) = 9 /\
  ~ ETMemoryAllocator.used_size (snd r) <= MemoryAllocator.size (ETMemoryAllocator.base (snd r)) /\
  @ETMemoryAllocator.free_size cortex_m (snd r) = 2 ^ 32 - 1.
Proof.
  intros m r.
  assert (Hr : r = (Some 0x1000,
                    {| ETMemoryAllocator.base :=
                         {| MemoryAllocator.begin_ := 0x1000;
                            MemoryAllocator.end_ := 0x1008;
                            MemoryAllocator.cur_ := 0x1001 |};
                       ETMemoryAllocator.used_ := 9 |}))
    by (vm_compute; reflexivity).
  rewrite Hr. cbn [fst snd ETMemoryAllocator.base ETMemoryAllocator.used_size
                   ETMemoryAllocator.used_].
  repeat split; try reflexivity.
  unfold MemoryAllocator.size. simpl. lia.
Qed.

(** C3.  A call [allocate(size, alignment)] that fails, the base allocator
    returning null, leaves [used_size()], and the allocator as a whole,
    unchanged. *)
Theorem allocate_failure_used_unchanged `{Platform}
    (m : ETMemoryAllocator.t) (size alignment : Z) :
  fst (ETMemoryAllocator.allocate m size alignment) = None ->
  ETMemoryAllocator.used_size (snd (ETMemoryAllocator.allocate m size alignment))
    = ETMemoryAllocator.used_size m /\
  snd (ETMemoryAllocator.allocate m size alignment) = m.
Proof.
  destruct (ETMemoryAllocator.allocate m size alignment) as [ret m'] eqn:Hcall.
  simpl. intros ->.
  apply ETMemoryAllocator_allocate_None in Hcall as ->. auto.
Qed.

Lemma allocate_failure_used_unchanged_witness :
  let m := snd (@ETMemoryAllocator.allocate cortex_m (ETMemoryAllocator.make 16 0x1000) 9 8) in
  fst (@ETMemoryAllocator.allocate cortex_m m 4 8) = None /\
  ETMemoryAllocator.used_size (snd (@ETMemoryAllocator.allocate cortex_m m 4 8)) = 17 /\
  snd (@ETMemoryAllocator.allocate cortex_m m 4 8) = m.
Proof.
  split; [reflexivity|].
  exact (@allocate_failure_used_unchanged cortex_m
           (snd (@ETMemoryAllocator.allocate cortex_m (ETMemoryAllocator.make 16 0x1000) 9 8))
           4 8 eq_refl).
Defined.

(** ** The program loader *)

Section LoaderFacts.
Context `{Platform} `{Runtime}.

Abbreviation loader := ProgramLoader.t.

Lemma isLoaded_get_method (s : loader) :
  ProgramLoader.isLoaded s = true ->
  exists method,
    ProgramLoader.method_ s = Some (ResOk method) /\
    ProgramLoader.get_method s = Some method.
Proof.
  unfold ProgramLoader.isLoaded, ProgramLoader.get_method.
  destruct (ProgramLoader.method_ s) as [[method|e]|]; simpl; try discriminate.
  intros _. exists method. auto.
Qed.

Lemma get_method_isLoaded (s : loader) (method : Method) :
  ProgramLoader.get_method s = Some method ->
  ProgramLoader.method_ s = Some (ResOk method) /\ ProgramLoader.isLoaded s = true.
Proof.
  unfold ProgramLoader.isLoaded, ProgramLoader.get_method.
  destruct (ProgramLoader.method_ s) as [[m|e]|]; simpl; try discriminate.
  intros [= ->]. auto.
Qed.

(** The runtime's allocations reach nothing but the two allocators. *)
Lemma runtime_allocations_frame (cs : list AllocatorCall) (s : loader) :
  exists ma ta,
    ProgramLoader.runtime_allocations s cs = ProgramLoader.set_allocators s ma ta.
Proof.
  unfold ProgramLoader.runtime_allocations.
  revert s. induction cs as [|c cs IH]; intros s; simpl.
  - exists (ProgramLoader.method_allocator_ s), (ProgramLoader.temp_allocator_ s).
    destruct s; reflexivity.
  - destruct (IH (ProgramLoader.runtime_allocate s c)) as (ma & ta & ->).
    exists ma, ta. destruct c; reflexivity.
Qed.


(** C9.  While no method is loaded ([isLoaded()] is false), [runInference]
    returns [InvalidState] and leaves the loader, its allocators included,
    and the caller's output buffer as they were. *)
Theorem runInference_not_loaded (s : loader) (input1 input2 : list float)
    (input_size : Z) (output : list float) (output_size : Z) :
  ProgramLoader.isLoaded s = false ->
  ProgramLoader.runInference s input1 input2 input_size output output_size
    = Some (InvalidState, s, output).
Proof.
  intros Hnot. unfold ProgramLoader.runInference. rewrite Hnot. reflexivity.
Qed.

(** C4 (as amended).  On a loaded method, [createInputTensor] with
    [input_index >= 2] leaves the loader, and with it both allocators,
    unchanged, and fails: with [InvalidArgument], unless the runtime's
    metadata query for that index fails, in which case with the query's
    error. *)
Theorem createInputTensor_index_out_of_range (s : loader) (data : list float)
    (size input_index : Z) :
  ProgramLoader.isLoaded s = true ->
  2 <= input_index ->
  exists method,
    ProgramLoader.get_method s = Some method /\
    ProgramLoader.createInputTensor s data size input_index
      = Some (match input_tensor_meta (method_meta method) input_index with
              | ResErr _ as tensor_meta_result => Result_error tensor_meta_result
              | ResOk _ => InvalidArgument
              end, s) /\
    match input_tensor_meta (method_meta method) input_index with
    | ResErr _ as tensor_meta_result => Result_error tensor_meta_result
    | ResOk _ => InvalidArgument
    end <> Ok.
Proof.
  intros Hloaded Hindex.
  destruct (isLoaded_get_method s Hloaded) as (method & _ & Hget).
  exists method. split; [exact Hget|].
  unfold ProgramLoader.createInputTensor. rewrite Hloaded, Hget. simpl.
  destruct (input_tensor_meta (method_meta method) input_index) as [tensor_meta|e].
  - split; [|discriminate].
    destruct (negb _); [reflexivity|].
    apply Z.leb_le in Hindex. rewrite Hindex. reflexivity.
  - split; [reflexivity|]. destruct e; discriminate.
Qed.

(** [createInputTensor] when the provided byte count differs from the
    declared one. *)
Lemma createInputTensor_mismatch (s : loader) (method : Method) (tensor_meta : TensorInfo)
    (data : list float) (size input_index : Z) :
  ProgramLoader.get_method s = Some method ->
  input_tensor_meta (method_meta method) input_index = ResOk tensor_meta ->
  ti_nbytes tensor_meta <> size_mul size sizeof_float ->
  ProgramLoader.createInputTensor s data size input_index = Some (InvalidArgument, s).
Proof.
  intros Hget Hmeta Hne.
  destruct (get_method_isLoaded s method Hget) as [_ Hloaded].
  unfold ProgramLoader.createInputTensor. rewrite Hloaded, Hget. simpl. rewrite Hmeta.
  destruct (_ =? _) eqn:Heq; [|reflexivity].
  apply Z.eqb_eq in Heq. congruence.
Qed.

(** [createInputTensor] when the byte counts agree and the index is 0 or 1:
    the metadata and the tensor are stored in the slot, the tensor is handed
    to [set_input], and the status is what [set_input] returned. *)
Lemma createInputTensor_bound (s : loader) (method : Method) (tensor_meta : TensorInfo)
    (data : list float) (size input_index : Z) :
  ProgramLoader.get_method s = Some method ->
  input_tensor_meta (method_meta method) input_index = ResOk tensor_meta ->
  ti_nbytes tensor_meta = size_mul size sizeof_float ->
  input_index < 2 ->
  exists s',
    ProgramLoader.createInputTensor s data size input_index
      = Some ((Method_set_input method
                 (EValue_Tensor (ProgramLoader.input_tensor tensor_meta data))
                 input_index).1.1, s') /\
    ProgramLoader.calls_ s' = ProgramLoader.calls_ s ++ [Call_set_input input_index] /\
    ProgramLoader.get_method s'
      = Some {| method_meta := method_meta method;
                method_state :=
                  (Method_set_input method
                     (EValue_Tensor (ProgramLoader.input_tensor tensor_meta data))
                     input_index).1.2 |}.
Proof.
  intros Hget Hmeta Heq Hindex.
  destruct (get_method_isLoaded s method Hget) as [_ Hloaded].
  unfold ProgramLoader.createInputTensor. rewrite Hloaded, Hget. simpl. rewrite Hmeta.
  apply Z.eqb_eq in Heq. rewrite Z.eqb_sym in Heq. rewrite Heq. simpl.
  assert (Hlt : (2 <=? input_index) = false) by (apply Z.leb_gt; exact Hindex).
  rewrite Hlt.
  destruct (Method_set_input method _ input_index) as [[error state] allocations]. simpl.
  match goal with
  | |- context [ProgramLoader.runtime_allocations ?s0 allocations] =>
      destruct (runtime_allocations_frame allocations s0) as (ma & ta & ->)
  end.
  eexists. split; [destruct (decide (error = Ok)) as [->|]; reflexivity|].
  split; reflexivity.
Qed.

Lemma createInputTensor_Ok_loaded (s s' : loader) (data : list float) (size input_index : Z) :
  ProgramLoader.createInputTensor s data size input_index = Some (Ok, s') ->
  ProgramLoader.isLoaded s = true.
Proof.
  unfold ProgramLoader.createInputTensor.
  destruct (ProgramLoader.isLoaded s); [reflexivity | discriminate].
Qed.

(** C5 (as amended).  On a loaded method whose declared byte length for input
    0 or for input 1 differs from [input_size * sizeof(float)], [runInference]
    fails, does not execute the method (it makes no call into the runtime, or
    only the [set_input] of slot 0) and leaves the caller's output buffer as
    it was.  The status is [InvalidArgument] when slot 0 differs, and when
    slot 0 agrees and binds; when slot 0 agrees and [set_input] refuses it,
    the status is the error [set_input] returned. *)
Theorem runInference_input_size_mismatch (s : loader) (method : Method)
    (t0 t1 : TensorInfo) (input1 input2 : list float) (input_size : Z)
    (output : list float) (output_size : Z) :
  ProgramLoader.get_method s = Some method ->
  input_tensor_meta (method_meta method) 0 = ResOk t0 ->
  input_tensor_meta (method_meta method) 1 = ResOk t1 ->
  ti_nbytes t0 <> size_mul input_size sizeof_float \/
  ti_nbytes t1 <> size_mul input_size sizeof_float ->
  exists e s',
    ProgramLoader.runInference s input1 input2 input_size output output_size
      = Some (e, s', output) /\
    e <> Ok /\
    (ProgramLoader.calls_ s' = ProgramLoader.calls_ s \/
     ProgramLoader.calls_ s' = ProgramLoader.calls_ s ++ [Call_set_input 0]) /\
    (ti_nbytes t0 <> size_mul input_size sizeof_float -> e = InvalidArgument /\ s' = s) /\
    (ti_nbytes t0 = size_mul input_size sizeof_float ->
     e = match (Method_set_input method
                  (EValue_Tensor (ProgramLoader.input_tensor t0 input1)) 0).1.1 with
         | Ok => InvalidArgument
         | e0 => e0
         end).
Proof.
  intros Hget Hmeta0 Hmeta1 Hdiffer.
  destruct (get_method_isLoaded s method Hget) as [_ Hloaded].
  unfold ProgramLoader.runInference. rewrite Hloaded. simpl.
  destruct (Z.eq_dec (ti_nbytes t0) (size_mul input_size sizeof_float)) as [Heq0|Hne0].
  - assert (Hne1 : ti_nbytes t1 <> size_mul input_size sizeof_float) by tauto.
    destruct (createInputTensor_bound s method t0 input1 input_size 0 Hget Hmeta0 Heq0)
      as (s1 & -> & Hcalls & Hget1); [lia|].
    set (e0 := (Method_set_input method _ 0).1.1) in *. simpl.
    destruct (decide (e0 = Ok)) as [Hok|Hfail].
    + rewrite (createInputTensor_mismatch s1 _ t1 input2 input_size 1 Hget1 Hmeta1 Hne1).
      simpl. exists InvalidArgument, s1.
      split; [reflexivity|]. split; [discriminate|]. split; [right; exact Hcalls|].
      split; [intros Hne0; contradiction|].
      intros _. rewrite Hok. reflexivity.
    + exists e0, s1.
      split; [reflexivity|]. split; [exact Hfail|]. split; [right; exact Hcalls|].
      split; [intros Hne0; contradiction|].
      intros _. destruct e0; congruence.
  - rewrite (createInputTensor_mismatch s _ t0 input1 input_size 0 Hget Hmeta0 Hne0).
    simpl. exists InvalidArgument, s.
    split; [reflexivity|]. split; [discriminate|]. split; [left; reflexivity|].
    split; [intros _; split; reflexivity|].
    intros Heq0. contradiction.
Qed.

(** [runInference] from the point where both inputs are bound and the
    execution has returned [Ok]. *)
Lemma runInference_executed (s s1 s2 : loader) (method : Method) (state : MethodState)
    (allocations : list AllocatorCall) (input1 input2 : list float) (input_size : Z)
    (output : list float) (output_size : Z) :
  ProgramLoader.createInputTensor s input1 input_size 0 = Some (Ok, s1) ->
  ProgramLoader.createInputTensor s1 input2 input_size 1 = Some (Ok, s2) ->
  ProgramLoader.get_method s2 = Some method ->
  Method_execute method = (Ok, state, allocations) ->
  ProgramLoader.runInference s input1 input2 input_size output output_size
    = Some
        match Method_get_output
                {| method_meta := method_meta method; method_state := state |} 0 with
        | EValue_Tensor output_tensor =>
            if output_size <? to_size_t (numel output_tensor)
            then (InvalidArgument, ProgramLoader.after_execute s2 method state allocations, output)
            else (Ok, ProgramLoader.after_execute s2 method state allocations,
                  memcpy output (impl_data output_tensor)
                    (size_mul (to_size_t (numel output_tensor)) sizeof_float))
        | _ => (InvalidArgument, ProgramLoader.after_execute s2 method state allocations, output)
        end.
Proof.
  intros Hbind0 Hbind1 Hget Hexec.
  pose proof (createInputTensor_Ok_loaded _ _ _ _ _ Hbind0) as Hloaded.
  unfold ProgramLoader.runInference. rewrite Hloaded. simpl.
  rewrite Hbind0. simpl. rewrite Hbind1. simpl. rewrite Hget. simpl. rewrite Hexec.
  simpl.
  destruct (Method_get_output _ 0); try reflexivity.
  destruct (_ <? _); reflexivity.
Qed.

(** C6.  When both inputs are bound and the execution succeeds with a tensor
    of [N] elements as output 0, and [output_size < N], [runInference]
    returns [InvalidArgument] and the caller's output buffer is what it was:
    nothing is copied.  [N] is the element count as the [size_t] the code
    holds it in. *)
Theorem runInference_output_too_small (s s1 s2 : loader) (method : Method)
    (state : MethodState) (allocations : list AllocatorCall) (output_tensor : TensorImpl)
    (input1 input2 : list float) (input_size : Z) (output : list float) (output_size : Z) :
  ProgramLoader.createInputTensor s input1 input_size 0 = Some (Ok, s1) ->
  ProgramLoader.createInputTensor s1 input2 input_size 1 = Some (Ok, s2) ->
  ProgramLoader.get_method s2 = Some method ->
  Method_execute method = (Ok, state, allocations) ->
  Method_get_output {| method_meta := method_meta method; method_state := state |} 0
    = EValue_Tensor output_tensor ->
  output_size < to_size_t (numel output_tensor) ->
  ProgramLoader.runInference s input1 input2 input_size output output_size
    = Some (InvalidArgument, ProgramLoader.after_execute s2 method state allocations, output).
Proof.
  intros Hbind0 Hbind1 Hget Hexec Hout Hsmall.
  rewrite (runInference_executed s s1 s2 method state allocations) by assumption.
  rewrite Hout. apply Z.ltb_lt in Hsmall. rewrite Hsmall. reflexivity.
Qed.

(** [memcpy] of [n] whole elements. *)
Lemma memcpy_elements (dst src : list float) (n : Z) :
  0 <= n -> n * sizeof_float < SIZE_MODULUS ->
  memcpy dst src (size_mul n sizeof_float) = take (Z.to_nat n) src ++ drop (Z.to_nat n) dst.
Proof.
  intros Hn Hfit. unfold memcpy, size_mul, to_size_t, sizeof_float in *.
  rewrite Z.mod_small by lia. rewrite Z.div_mul by lia. reflexivity.
Qed.

(** C7.  When both inputs are bound, the execution succeeds with a tensor of
    [N] elements as output 0, and [output_size >= N], [runInference] returns
    [Ok]; the first [N] elements of the caller's buffer are the tensor's data
    and every element at an index [>= N] is what it was.  The caller's
    buffer holds [output_size] elements, the tensor's data [N], and [N]
    floats fit the address space. *)
Theorem runInference_copies_output (s s1 s2 : loader) (method : Method)
    (state : MethodState) (allocations : list AllocatorCall) (output_tensor : TensorImpl)
    (input1 input2 : list float) (input_size : Z) (output : list float) (output_size : Z) :
  ProgramLoader.createInputTensor s input1 input_size 0 = Some (Ok, s1) ->
  ProgramLoader.createInputTensor s1 input2 input_size 1 = Some (Ok, s2) ->
  ProgramLoader.get_method s2 = Some method ->
  Method_execute method = (Ok, state, allocations) ->
  Method_get_output {| method_meta := method_meta method; method_state := state |} 0
    = EValue_Tensor output_tensor ->
  to_size_t (numel output_tensor) <= output_size ->
  output_size <= Z.of_nat (length output) ->
  to_size_t (numel output_tensor) <= Z.of_nat (length (impl_data output_tensor)) ->
  to_size_t (numel output_tensor) * sizeof_float < SIZE_MODULUS ->
  exists output',
    ProgramLoader.runInference s input1 input2 input_size output output_size
      = Some (Ok, ProgramLoader.after_execute s2 method state allocations, output') /\
    length output' = length output /\
    (forall i : nat, (i < Z.to_nat (to_size_t (numel output_tensor)))%nat ->
       output' !! i = impl_data output_tensor !! i) /\
    (forall i : nat, (Z.to_nat (to_size_t (numel output_tensor)) <= i)%nat ->
       output' !! i = output !! i).
Proof.
  intros Hbind0 Hbind1 Hget Hexec Hout Hfits Hbuffer Hdata Haddr.
  rewrite (runInference_executed s s1 s2 method state allocations) by assumption.
  rewrite Hout. apply Z.ltb_ge in Hfits as Hge. rewrite Hge.
  pose proof (to_size_t_range (numel output_tensor)) as [Hn _].
  rewrite memcpy_elements by assumption.
  set (n := Z.to_nat (to_size_t (numel output_tensor))).
  assert (Hn_data : (n <= length (impl_data output_tensor))%nat) by lia.
  assert (Hn_out : (n <= length output)%nat) by lia.
  eexists. split; [reflexivity|]. split; [|split].
  - rewrite length_app, length_take, length_drop. lia.
  - intros i Hi. rewrite lookup_app_l by (rewrite length_take; lia).
    apply lookup_take_lt. exact Hi.
  - intros i Hi. rewrite lookup_app_r by (rewrite length_take; lia).
    rewrite length_take, lookup_drop. f_equal. lia.
Qed.

Lemma Result_error_ResErr {T} (e : Error) : Result_error (@ResErr T e) <> Ok.
Proof. destruct e; discriminate. Qed.

(** The loop of [loadProgram], when it runs to its end, appends one buffer
    and one span per id, in the order of the ids. *)
Lemma allocate_planned_buffers_appends (method_meta : MethodMeta) (ids : list Z)
    (s s' : loader) :
  ProgramLoader.allocate_planned_buffers method_meta ids s = Some (inr s') ->
  exists buffers spans,
    ProgramLoader.planned_buffers_ s' = ProgramLoader.planned_buffers_ s ++ buffers /\
    ProgramLoader.planned_spans_ s' = ProgramLoader.planned_spans_ s ++ spans /\
    length buffers = length ids /\
    length spans = length ids /\
    forall (i : nat) (id : Z), ids !! i = Some id ->
      exists buffer span declared,
        buffers !! i = Some buffer /\ spans !! i = Some span /\
        memory_planned_buffer_size method_meta id = ResOk declared /\
        span = {| span_data := buffer; span_size := to_size_t declared |}.
Proof.
  revert s. induction ids as [|id ids IH]; intros s; simpl.
  - intros [= <-]. exists [], []. rewrite !app_nil_r.
    repeat split; try reflexivity. intros i id Hi. discriminate.
  - destruct (memory_planned_buffer_size method_meta id) as [declared|e] eqn:Hsize;
      [|discriminate].
    destruct (ProgramLoader.method_allocator_ s) as [a|]; [|discriminate]. simpl.
    destruct (ETMemoryAllocator.allocate a (to_size_t declared) kDefaultAlignment)
      as [[buffer|] a']; [|discriminate].
    intros Hrest. apply IH in Hrest as (buffers & spans & Hb & Hs & Hlb & Hls & Hall).
    simpl in Hb, Hs. rewrite <- app_assoc in Hb, Hs.
    exists (buffer :: buffers),
           ({| span_data := buffer; span_size := to_size_t declared |} :: spans).
    split; [exact Hb|]. split; [exact Hs|].
    split; [simpl; congruence|]. split; [simpl; congruence|].
    intros [|i] id' Hi; simpl in Hi.
    + injection Hi as <-. eexists _, _, declared. auto.
    + apply Hall. exact Hi.
Qed.

(** Leaving the loop early is never a success. *)
Lemma allocate_planned_buffers_exit (method_meta : MethodMeta) (ids : list Z)
    (s s' : loader) (e : Error) :
  ProgramLoader.allocate_planned_buffers method_meta ids s = Some (inl (e, s')) ->
  e <> Ok.
Proof.
  revert s. induction ids as [|id ids IH]; intros s; simpl; [discriminate|].
  destruct (memory_planned_buffer_size method_meta id) as [declared|e'].
  - destruct (ProgramLoader.method_allocator_ s) as [a|]; [|discriminate]. simpl.
    destruct (ETMemoryAllocator.allocate a (to_size_t declared) kDefaultAlignment)
      as [[buffer|] a'].
    + apply IH.
    + intros [= <- _]. discriminate.
  - intros [= <- _]. apply Result_error_ResErr.
Qed.

Lemma buffer_ids_lookup (n id : Z) :
  0 <= id < n -> ProgramLoader.buffer_ids n !! Z.to_nat id = Some id.
Proof.
  intros Hid. unfold ProgramLoader.buffer_ids.
  rewrite list_lookup_fmap, lookup_seq_lt by lia. simpl. f_equal. lia.
Qed.

Lemma buffer_ids_length (n : Z) : length (ProgramLoader.buffer_ids n) = Z.to_nat n.
Proof. unfold ProgramLoader.buffer_ids. rewrite length_fmap, length_seq. reflexivity. Qed.

(** The loop never touches [method_]. *)
Lemma allocate_planned_buffers_method (method_meta : MethodMeta) (ids : list Z)
    (s : loader) (r : Error * loader + loader) :
  ProgramLoader.allocate_planned_buffers method_meta ids s = Some r ->
  ProgramLoader.method_ (match r with inl (_, s') => s' | inr s' => s' end)
    = ProgramLoader.method_ s.
Proof.
  revert s. induction ids as [|id ids IH]; intros s; simpl.
  - intros [= <-]. reflexivity.
  - destruct (memory_planned_buffer_size method_meta id) as [declared|e].
    + destruct (ProgramLoader.method_allocator_ s) as [a|]; [|discriminate]. simpl.
      destruct (ETMemoryAllocator.allocate a (to_size_t declared) kDefaultAlignment)
        as [[buffer|] a'].
      * intros Hrest. apply IH in Hrest. exact Hrest.
      * intros [= <-]. reflexivity.
    + intros [= <-]. reflexivity.
Qed.

(** [isLoaded()] follows [loadProgram()]: a call that returns [Ok] leaves a
    loaded method, and a call that fails leaves [method_] as it was. *)
Lemma loadProgram_isLoaded (s s' : loader) (e : Error) :
  ProgramLoader.loadProgram s = Some (e, s') ->
  if decide (e = Ok) then ProgramLoader.isLoaded s' = true
  else ProgramLoader.method_ s' = ProgramLoader.method_ s.
Proof.
  unfold ProgramLoader.loadProgram.
  destruct (ProgramLoader.initialized_ s); simpl; [|intros [= <- <-]; reflexivity].
  destruct (Program_load model_pte) as [program|e0].
  2: { intros [= <- <-]. pose proof (Result_error_ResErr (T:=Program) e0).
       destruct (decide _); [contradiction | reflexivity]. }
  destruct (Program_method_meta program "forward") as [method_meta|e0].
  2: { intros [= <- <-]. pose proof (Result_error_ResErr (T:=MethodMeta) e0).
       destruct (decide _); [contradiction | reflexivity]. }
  destruct (ProgramLoader.allocate_planned_buffers method_meta _ _)
    as [[[e1 s_loop]|s_loop]|] eqn:Hloop; simpl; [| |discriminate].
  { intros [= <- <-].
    pose proof (allocate_planned_buffers_exit _ _ _ _ _ Hloop).
    apply allocate_planned_buffers_method in Hloop.
    destruct (decide _); [contradiction | exact Hloop]. }
  apply allocate_planned_buffers_method in Hloop. simpl in Hloop.
  destruct (ProgramLoader.method_allocator_ s_loop) as [ma|]; [|discriminate]. simpl.
  destruct (ProgramLoader.temp_allocator_ s_loop) as [ta|]; [|discriminate]. simpl.
  destruct (Program_load_method program "forward" _) as [[state|e0] allocations].
  - intros [= <- <-]. simpl.
    match goal with
    | |- context [ProgramLoader.runtime_allocations ?s0 allocations] =>
        destruct (runtime_allocations_frame allocations s0) as (ma' & ta' & ->)
    end.
    reflexivity.
  - intros [= <- <-]. pose proof (Result_error_ResErr (T:=MethodState) e0).
    match goal with
    | |- context [ProgramLoader.runtime_allocations ?s0 allocations] =>
        destruct (runtime_allocations_frame allocations s0) as (ma' & ta' & ->)
    end.
    destruct (decide _); [contradiction | exact Hloop].
Qed.

(** C10 (as amended).  After a [loadProgram()] that returned [Ok], on a fresh
    or on an already loaded instance, [planned_spans_] (and
    [planned_buffers_]) holds exactly as many entries as the program declares
    planned buffers; the span at position [id] starts at the buffer allocated
    for [id] and its length is the declared size of buffer [id] converted to
    [size_t] ([static_cast<size_t>]), which is the declared size itself
    whenever that is a [size_t] value; and whatever the two sequences held
    before the call has no part in the result. *)
Theorem loadProgram_planned_spans (s s' : loader) :
  ProgramLoader.loadProgram s = Some (Ok, s') ->
  exists program method_meta,
    Program_load model_pte = ResOk program /\
    Program_method_meta program "forward" = ResOk method_meta /\
    length (ProgramLoader.planned_spans_ s')
      = Z.to_nat (num_memory_planned_buffers method_meta) /\
    length (ProgramLoader.planned_buffers_ s')
      = Z.to_nat (num_memory_planned_buffers method_meta) /\
    (forall id : Z, 0 <= id < num_memory_planned_buffers method_meta ->
       exists declared buffer,
         memory_planned_buffer_size method_meta id = ResOk declared /\
         ProgramLoader.planned_buffers_ s' !! Z.to_nat id = Some buffer /\
         ProgramLoader.planned_spans_ s' !! Z.to_nat id
           = Some {| span_data := buffer; span_size := to_size_t declared |} /\
         (is_size_t declared ->
          ProgramLoader.planned_spans_ s' !! Z.to_nat id
            = Some {| span_data := buffer; span_size := declared |})) /\
    (forall (buffers : list Z) (spans : list Span),
       ProgramLoader.loadProgram (ProgramLoader.set_planned s buffers spans)
         = Some (Ok, s')).
Proof.
  intros Hload.
  assert (Hprior : forall buffers spans,
            ProgramLoader.loadProgram (ProgramLoader.set_planned s buffers spans)
            = Some (Ok, s')).
  { intros buffers spans. revert Hload. unfold ProgramLoader.loadProgram. simpl.
    destruct (ProgramLoader.initialized_ s); simpl; [|discriminate].
    destruct (Program_load model_pte) as [program|e];
      [|intros [= He _]; destruct (Result_error_ResErr e He)].
    destruct (Program_method_meta program "forward") as [method_meta|e];
      [|intros [= He _]; destruct (Result_error_ResErr e He)].
    intros Hload. exact Hload. }
  unfold ProgramLoader.loadProgram in Hload.
  destruct (ProgramLoader.initialized_ s); simpl in Hload; [|discriminate].
  destruct (Program_load model_pte) as [program|e] eqn:Hprogram;
    [|injection Hload as He _; destruct (Result_error_ResErr e He)].
  destruct (Program_method_meta program "forward") as [method_meta|e] eqn:Hmeta;
    [|injection Hload as He _; destruct (Result_error_ResErr e He)].
  destruct (ProgramLoader.allocate_planned_buffers method_meta _ _)
    as [[[e s_loop]|s_loop]|] eqn:Hloop; simpl in Hload; [| |discriminate].
  { injection Hload as -> ->.
    destruct (allocate_planned_buffers_exit _ _ _ _ _ Hloop eq_refl). }
  destruct (ProgramLoader.method_allocator_ s_loop) as [ma|]; [|discriminate].
  simpl in Hload.
  destruct (ProgramLoader.temp_allocator_ s_loop) as [ta|]; [|discriminate].
  simpl in Hload.
  destruct (Program_load_method program "forward" _) as [[state|e] allocations];
    [|injection Hload as He _; destruct (Result_error_ResErr e He)].
  match type of Hload with
  | context [ProgramLoader.runtime_allocations ?s0 allocations] =>
      destruct (runtime_allocations_frame allocations s0) as (ma' & ta' & Hframe)
  end.
  rewrite Hframe in Hload. injection Hload as <-. simpl.
  apply allocate_planned_buffers_appends in Hloop
    as (buffers & spans & Hb & Hs & Hlb & Hls & Hall).
  simpl in Hb, Hs. rewrite buffer_ids_length in Hlb, Hls.
  exists program, method_meta.
  split; [reflexivity|]. split; [exact Hmeta|].
  split; [congruence|]. split; [congruence|]. split; [|exact Hprior].
  intros id Hid.
  destruct (Hall _ _ (buffer_ids_lookup _ _ Hid))
    as (buffer & span & declared & Hbuffer & Hspan & Hsize & ->).
  exists declared, buffer. rewrite Hb, Hs.
  split; [exact Hsize|]. split; [exact Hbuffer|]. split; [exact Hspan|].
  intros Hrange. rewrite Hspan, (to_size_t_small _ Hrange). reflexivity.
Qed.

End LoaderFacts.

(** ** The properties at concrete loaders

    The loaders below run on the Cortex-M build against scripted runtimes;
    [0x40000000], [0x40400000] and [0x40A00000] are the floats 2.0, 3.0
    and 5.0. *)

Lemma runInference_not_loaded_witness :
  let rt := scripted (add_model [0x40A00000]) in
  let s := @ProgramLoader.initialize cortex_m scripted_types ProgramLoader.new in
  ProgramLoader.isLoaded s = false /\
  @ProgramLoader.runInference cortex_m _ rt s [0x40000000] [0x40400000] 1 [0] 1
    = Some (InvalidState, s, [0]).
Proof.
  intros rt s. split; [reflexivity|].
  exact (@runInference_not_loaded cortex_m _ rt s [0x40000000] [0x40400000] 1 [0] 1 eq_refl).
Defined.

Lemma createInputTensor_index_out_of_range_witness :
  let rt := scripted (add_model [0x40A00000]) in
  let s := loaded (add_model [0x40A00000]) in
  ProgramLoader.isLoaded s = true /\
  2 <= 2 /\
  exists method,
    ProgramLoader.get_method s = Some method /\
    @ProgramLoader.createInputTensor cortex_m _ rt s [0x40000000] 1 2
      = Some (match @input_tensor_meta _ rt (method_meta method) 2 with
              | ResErr _ as tensor_meta_result => Result_error tensor_meta_result
              | ResOk _ => InvalidArgument
              end, s) /\
    match @input_tensor_meta _ rt (method_meta method) 2 with
    | ResErr _ as tensor_meta_result => Result_error tensor_meta_result
    | ResOk _ => InvalidArgument
    end <> Ok.
Proof.
  intros rt s.
  assert (Hloaded : ProgramLoader.isLoaded s = true) by (vm_compute; reflexivity).
  assert (Hindex : 2 <= 2) by lia.
  split; [exact Hloaded|]. split; [exact Hindex|].
  exact (@createInputTensor_index_out_of_range cortex_m _ rt s [0x40000000] 1 2
           Hloaded Hindex).
Defined.

(** C4 (as stated) fails: on a loaded method whose metadata query for input 2
    fails with [InvalidProgram], [createInputTensor] with [input_index = 2]
    returns [InvalidProgram], the query's error, before it reaches the check
    of the index. *)
Lemma createInputTensor_index_2_not_InvalidArgument :
  let rt := scripted third_input_unreadable in
  let s := loaded third_input_unreadable in
  ProgramLoader.isLoaded s = true /\
  @ProgramLoader.createInputTensor cortex_m _ rt s [0x40000000] 1 2
    = Some (InvalidProgram, s) /\
  InvalidProgram <> InvalidArgument.
Proof.
  intros rt s. split; [vm_compute; reflexivity|].
  split; [vm_compute; reflexivity|discriminate].
Qed.

Lemma runInference_input_size_mismatch_witness :
  let rt := scripted first_input_refused in
  let s := loaded first_input_refused in
  let method := method_of s in
  ProgramLoader.get_method s = Some method /\
  @input_tensor_meta _ rt (method_meta method) 0 = ResOk one_float /\
  @input_tensor_meta _ rt (method_meta method) 1 = ResOk two_floats /\
  (ti_nbytes one_float <> @size_mul cortex_m 2 sizeof_float \/
   ti_nbytes two_floats <> @size_mul cortex_m 2 sizeof_float) /\
  exists e s',
    @ProgramLoader.runInference cortex_m _ rt s
      [0x40000000; 0x40000000] [0x40400000; 0x40400000] 2 [0; 0] 2
      = Some (e, s', [0; 0]) /\
    e <> Ok /\
    (ProgramLoader.calls_ s' = ProgramLoader.calls_ s \/
     ProgramLoader.calls_ s' = ProgramLoader.calls_ s ++ [Call_set_input 0]) /\
    (ti_nbytes one_float <> @size_mul cortex_m 2 sizeof_float ->
     e = InvalidArgument /\ s' = s) /\
    (ti_nbytes one_float = @size_mul cortex_m 2 sizeof_float ->
     e = match (@Method_set_input _ rt method
                  (EValue_Tensor (ProgramLoader.input_tensor one_float
                                    [0x40000000; 0x40000000])) 0).1.1 with
         | Ok => InvalidArgument
         | e0 => e0
         end).
Proof.
  intros rt s method.
  assert (Hget : ProgramLoader.get_method s = Some method) by (vm_compute; reflexivity).
  assert (Hmeta0 : @input_tensor_meta _ rt (method_meta method) 0 = ResOk one_float)
    by reflexivity.
  assert (Hmeta1 : @input_tensor_meta _ rt (method_meta method) 1 = ResOk two_floats)
    by reflexivity.
  assert (Hdiffer : ti_nbytes one_float <> @size_mul cortex_m 2 sizeof_float \/
                    ti_nbytes two_floats <> @size_mul cortex_m 2 sizeof_float)
    by (left; vm_compute; discriminate).
  split; [exact Hget|]. split; [exact Hmeta0|]. split; [exact Hmeta1|].
  split; [exact Hdiffer|].
  exact (@runInference_input_size_mismatch cortex_m _ rt s method one_float two_floats
           [0x40000000; 0x40000000] [0x40400000; 0x40400000] 2 [0; 0] 2
           Hget Hmeta0 Hmeta1 Hdiffer).
Defined.

(** C5 (as stated) fails: the method declares 4 bytes for input 0 and 8 bytes
    for input 1 and refuses to bind input 0 with [InvalidState]; a call with
    [input_size = 1] differs from the declared length of input 1, and
    [runInference] returns [InvalidState], the error of the [set_input] for
    slot 0, not [InvalidArgument]. *)
Lemma runInference_mismatch_not_InvalidArgument :
  let rt := scripted first_input_refused in
  let s := loaded first_input_refused in
  ProgramLoader.isLoaded s = true /\
  @input_tensor_meta _ rt (method_meta (method_of s)) 0 = ResOk one_float /\
  @input_tensor_meta _ rt (method_meta (method_of s)) 1 = ResOk two_floats /\
  ti_nbytes two_floats <> @size_mul cortex_m 1 sizeof_float /\
  (fun r => (r.1.1, r.2)) <$>
    @ProgramLoader.runInference cortex_m _ rt s [0x40000000] [0x40400000] 1 [0] 1
    = Some (InvalidState, [0]) /\
  InvalidState <> InvalidArgument.
Proof.
  intros rt s.
  split; [vm_compute; reflexivity|].
  split; [reflexivity|]. split; [reflexivity|].
  split; [vm_compute; discriminate|].
  split; [vm_compute; reflexivity|discriminate].
Qed.

Lemma runInference_output_too_small_witness :
  let rt := scripted (add_model [0x40A00000; 0x40A00000]) in
  let s := loaded (add_model [0x40A00000; 0x40A00000]) in
  let s1 := state_of (@ProgramLoader.createInputTensor cortex_m _ rt s [0x40000000] 1 0) in
  let s2 := state_of (@ProgramLoader.createInputTensor cortex_m _ rt s1 [0x40400000] 1 1) in
  let method := method_of s2 in
  let state := (@Method_execute _ rt method).1.2 in
  let allocations := (@Method_execute _ rt method).2 in
  let output_tensor := float_tensor [0x40A00000; 0x40A00000] in
  @ProgramLoader.createInputTensor cortex_m _ rt s [0x40000000] 1 0 = Some (Ok, s1) /\
  @ProgramLoader.createInputTensor cortex_m _ rt s1 [0x40400000] 1 1 = Some (Ok, s2) /\
  ProgramLoader.get_method s2 = Some method /\
  @Method_execute _ rt method = (Ok, state, allocations) /\
  @Method_get_output _ rt {| method_meta := method_meta method; method_state := state |} 0
    = EValue_Tensor output_tensor /\
  1 < @to_size_t cortex_m (numel output_tensor) /\
  @ProgramLoader.runInference cortex_m _ rt s [0x40000000] [0x40400000] 1 [0] 1
    = Some (InvalidArgument,
            @ProgramLoader.after_execute cortex_m _ s2 method state allocations, [0]).
Proof.
  intros rt s s1 s2 method state allocations output_tensor.
  assert (Hbind0 : @ProgramLoader.createInputTensor cortex_m _ rt s [0x40000000] 1 0
                   = Some (Ok, s1)) by (vm_compute; reflexivity).
  assert (Hbind1 : @ProgramLoader.createInputTensor cortex_m _ rt s1 [0x40400000] 1 1
                   = Some (Ok, s2)) by (vm_compute; reflexivity).
  assert (Hget : ProgramLoader.get_method s2 = Some method) by (vm_compute; reflexivity).
  assert (Hexec : @Method_execute _ rt method = (Ok, state, allocations)) by reflexivity.
  assert (Hout : @Method_get_output _ rt
                   {| method_meta := method_meta method; method_state := state |} 0
                 = EValue_Tensor output_tensor) by reflexivity.
  assert (Hsmall : 1 < @to_size_t cortex_m (numel output_tensor))
    by (vm_compute; reflexivity).
  refine (conj Hbind0 (conj Hbind1 (conj Hget (conj Hexec (conj Hout (conj Hsmall _)))))).
  exact (@runInference_output_too_small cortex_m _ rt s s1 s2 method state allocations
           output_tensor [0x40000000] [0x40400000] 1 [0] 1
           Hbind0 Hbind1 Hget Hexec Hout Hsmall).
Defined.

Lemma runInference_copies_output_witness :
  let rt := scripted (add_model [0x40A00000]) in
  let s := loaded (add_model [0x40A00000]) in
  let s1 := state_of (@ProgramLoader.createInputTensor cortex_m _ rt s [0x40000000] 1 0) in
  let s2 := state_of (@ProgramLoader.createInputTensor cortex_m _ rt s1 [0x40400000] 1 1) in
  let method := method_of s2 in
  let state := (@Method_execute _ rt method).1.2 in
  let allocations := (@Method_execute _ rt method).2 in
  let output_tensor := float_tensor [0x40A00000] in
  let output := [0; 0x41100000] in
  @ProgramLoader.createInputTensor cortex_m _ rt s [0x40000000] 1 0 = Some (Ok, s1) /\
  @ProgramLoader.createInputTensor cortex_m _ rt s1 [0x40400000] 1 1 = Some (Ok, s2) /\
  ProgramLoader.get_method s2 = Some method /\
  @Method_execute _ rt method = (Ok, state, allocations) /\
  @Method_get_output _ rt {| method_meta := method_meta method; method_state := state |} 0
    = EValue_Tensor output_tensor /\
  @to_size_t cortex_m (numel output_tensor) <= 2 /\
  2 <= Z.of_nat (length output) /\
  @to_size_t cortex_m (numel output_tensor) <= Z.of_nat (length (impl_data output_tensor)) /\
  @to_size_t cortex_m (numel output_tensor) * sizeof_float < @SIZE_MODULUS cortex_m /\
  exists output',
    @ProgramLoader.runInference cortex_m _ rt s [0x40000000] [0x40400000] 1 output 2
      = Some (Ok, @ProgramLoader.after_execute cortex_m _ s2 method state allocations,
              output') /\
    length output' = length output /\
    (forall i : nat, (i < Z.to_nat (@to_size_t cortex_m (numel output_tensor)))%nat ->
       output' !! i = impl_data output_tensor !! i) /\
    (forall i : nat, (Z.to_nat (@to_size_t cortex_m (numel output_tensor)) <= i)%nat ->
       output' !! i = output !! i).
Proof.
  intros rt s s1 s2 method state allocations output_tensor output.
  assert (Hbind0 : @ProgramLoader.createInputTensor cortex_m _ rt s [0x40000000] 1 0
                   = Some (Ok, s1)) by (vm_compute; reflexivity).
  assert (Hbind1 : @ProgramLoader.createInputTensor cortex_m _ rt s1 [0x40400000] 1 1
                   = Some (Ok, s2)) by (vm_compute; reflexivity).
  assert (Hget : ProgramLoader.get_method s2 = Some method) by (vm_compute; reflexivity).
  assert (Hexec : @Method_execute _ rt method = (Ok, state, allocations)) by reflexivity.
  assert (Hout : @Method_get_output _ rt
                   {| method_meta := method_meta method; method_state := state |} 0
                 = EValue_Tensor output_tensor) by reflexivity.
  assert (Hfits : @to_size_t cortex_m (numel output_tensor) <= 2)
    by (vm_compute; discriminate).
  assert (Hbuffer : 2 <= Z.of_nat (length output)) by (vm_compute; discriminate).
  assert (Hdata : @to_size_t cortex_m (numel output_tensor)
                  <= Z.of_nat (length (impl_data output_tensor)))
    by (vm_compute; discriminate).
  assert (Haddr : @to_size_t cortex_m (numel output_tensor) * sizeof_float
                  < @SIZE_MODULUS cortex_m) by (vm_compute; reflexivity).
  refine (conj Hbind0 (conj Hbind1 (conj Hget (conj Hexec (conj Hout
           (conj Hfits (conj Hbuffer (conj Hdata (conj Haddr _))))))))).
  exact (@runInference_copies_output cortex_m _ rt s s1 s2 method state allocations
           output_tensor [0x40000000] [0x40400000] 1 output 2
           Hbind0 Hbind1 Hget Hexec Hout Hfits Hbuffer Hdata Haddr).
Defined.

(** The bundled scenario: 2.0 + 3.0 with a one-element output buffer. *)
Example runInference_add :
  (fun r => (r.1.1, r.2)) <$>
    @ProgramLoader.runInference cortex_m _ (scripted (add_model [0x40A00000]))
      (loaded (add_model [0x40A00000])) [0x40000000] [0x40400000] 1 [0] 1
  = Some (Ok, [0x40A00000]).
Proof. vm_compute. reflexivity. Qed.

Lemma loadProgram_planned_spans_witness :
  let rt := scripted (add_model [0x40A00000]) in
  let s := loaded (add_model [0x40A00000]) in
  let s' := state_of (@ProgramLoader.loadProgram cortex_m _ rt s) in
  ProgramLoader.isLoaded s = true /\
  @ProgramLoader.loadProgram cortex_m _ rt s = Some (Ok, s') /\
  ProgramLoader.planned_spans_ s
    = [{| span_data := 0x20001000; span_size := 48 |};
       {| span_data := 0x20001030; span_size := 16 |}] /\
  ProgramLoader.planned_spans_ s'
    = [{| span_data := 0x2000112C; span_size := 48 |};
       {| span_data := 0x2000115C; span_size := 16 |}] /\
  exists program method_meta,
    @Program_load _ rt (@model_pte _ rt) = ResOk program /\
    @Program_method_meta _ rt program "forward" = ResOk method_meta /\
    length (ProgramLoader.planned_spans_ s')
      = Z.to_nat (@num_memory_planned_buffers _ rt method_meta) /\
    length (ProgramLoader.planned_buffers_ s')
      = Z.to_nat (@num_memory_planned_buffers _ rt method_meta) /\
    (forall id : Z, 0 <= id < @num_memory_planned_buffers _ rt method_meta ->
       exists declared buffer,
         @memory_planned_buffer_size _ rt method_meta id = ResOk declared /\
         ProgramLoader.planned_buffers_ s' !! Z.to_nat id = Some buffer /\
         ProgramLoader.planned_spans_ s' !! Z.to_nat id
           = Some {| span_data := buffer; span_size := @to_size_t cortex_m declared |} /\
         (@is_size_t cortex_m declared ->
          ProgramLoader.planned_spans_ s' !! Z.to_nat id
            = Some {| span_data := buffer; span_size := declared |})) /\
    (forall (buffers : list Z) (spans : list Span),
       @ProgramLoader.loadProgram cortex_m _ rt (ProgramLoader.set_planned s buffers spans)
         = Some (Ok, s')).
Proof.
  intros rt s s'.
  assert (Hload : @ProgramLoader.loadProgram cortex_m _ rt s = Some (Ok, s'))
    by (vm_compute; reflexivity).
  split; [vm_compute; reflexivity|]. split; [exact Hload|].
  split; [vm_compute; reflexivity|]. split; [vm_compute; reflexivity|].
  exact (@loadProgram_planned_spans cortex_m _ rt s s' Hload).
Defined.

(** C10 (as stated) fails: on the 32-bit build, a program that declares a
    planned buffer of [2^32 + 16] bytes loads with [Ok]; the
    [static_cast<size_t>] of the declared size keeps 16, the allocation of 16
    bytes succeeds, and the span at position 0 has length 16, not the
    declared [4294967312]. *)
Lemma loadProgram_span_truncated :
  let rt := scripted oversized_plan in
  let r := load_of (@ProgramLoader.loadProgram cortex_m _ rt
                      (@ProgramLoader.initialize cortex_m _ ProgramLoader.new)) in
  @ProgramLoader.loadProgram cortex_m _ rt
    (@ProgramLoader.initialize cortex_m _ ProgramLoader.new) = Some r /\
  r.1 = Ok /\
  @num_memory_planned_buffers _ rt tt = 1 /\
  @memory_planned_buffer_size _ rt tt 0 = ResOk 4294967312 /\
  ProgramLoader.planned_spans_ r.2 = [{| span_data := 0x20001000; span_size := 16 |}] /\
  (forall span, ProgramLoader.planned_spans_ r.2 !! 0%nat = Some span ->
     span_size span <> 4294967312).
Proof.
  intros rt r.
  assert (Hspans : ProgramLoader.planned_spans_ r.2
                   = [{| span_data := 0x20001000; span_size := 16 |}])
    by (vm_compute; reflexivity).
  split; [vm_compute; reflexivity|]. split; [vm_compute; reflexivity|].
  split; [reflexivity|]. split; [vm_compute; reflexivity|].
  split; [exact Hspans|].
  intros span Hspan. rewrite Hspans in Hspan. injection Hspan as <-. discriminate.
Qed.

(** * Further properties of the code *)

(** ** The accounting of [ETMemoryAllocator] *)

Section Accounting.
Context `{Platform}.

(** The counter after a successful call, in arithmetic. *)
Lemma allocate_used_arith (m m' : ETMemoryAllocator.t) (size alignment p : Z) :
  is_size_t size -> is_size_t alignment -> is_size_t (ETMemoryAllocator.used_ m) ->
  ETMemoryAllocator.allocate m size alignment = (Some p, m') ->
  0 < alignment /\
  ETMemoryAllocator.used_ m' =
    if size mod alignment =? 0
    then to_size_t (ETMemoryAllocator.used_ m + size)
    else to_size_t (alignment * (ETMemoryAllocator.used_ m / alignment) + alignment + size).
Proof.
  intros Hsize Halign Hused Hcall.
  apply ETMemoryAllocator_allocate_Some in Hcall as (base' & Hbase & _ & ->).
  apply MemoryAllocator_allocate_Some in Hbase as (Hpow & _).
  apply isPowerOf2_pow in Hpow as (k & Hk & ->).
  assert (Hpos : 0 < 2 ^ k) by (apply Z.pow_pos_nonneg; lia).
  split; [exact Hpos|].
  replace (size_sub (2 ^ k) 1) with (2 ^ k - 1)
    by (symmetry; apply to_size_t_small; unfold is_size_t in *; lia).
  rewrite land_low_mask by assumption.
  destruct (size mod 2 ^ k =? 0); [reflexivity|].
  replace (size_not (2 ^ k - 1))
    with (Z.lnot (2 ^ k - 1) mod 2 ^ Z.pos size_bits) by reflexivity.
  rewrite land_high_mask by (try exact Hused; lia).
  apply size_add_assoc.
Qed.

(** X1.  A successful [allocate(size, alignment)] whose sums do not wrap
    raises the used counter by at least [size] and by at most
    [size + alignment]; by more than [size] when [size] is not a multiple of
    [alignment]. *)
Theorem allocate_counter_growth (m m' : ETMemoryAllocator.t) (size alignment p : Z) :
  is_size_t size -> is_size_t alignment -> is_size_t (ETMemoryAllocator.used_size m) ->
  ETMemoryAllocator.used_size m + alignment + size < SIZE_MODULUS ->
  ETMemoryAllocator.allocate m size alignment = (Some p, m') ->
  ETMemoryAllocator.used_size m + size <= ETMemoryAllocator.used_size m'
    <= ETMemoryAllocator.used_size m + size + alignment /\
  (size mod alignment <> 0 ->
   ETMemoryAllocator.used_size m + size < ETMemoryAllocator.used_size m').
Proof.
  unfold ETMemoryAllocator.used_size.
  intros Hsize Halign Hused Hfit Hcall.
  destruct (allocate_used_arith m m' size alignment p Hsize Halign Hused Hcall)
    as [Hpos ->].
  set (used := ETMemoryAllocator.used_ m) in *.
  pose proof (Z.div_mod used alignment ltac:(lia)) as Hdiv.
  pose proof (Z.mod_pos_bound used alignment Hpos) as Hrem.
  unfold is_size_t in *.
  destruct (size mod alignment =? 0) eqn:Hmod.
  - rewrite to_size_t_small by (unfold is_size_t; lia).
    apply Z.eqb_eq in Hmod. split; [lia | intros Hne; contradiction].
  - rewrite to_size_t_small by (unfold is_size_t; lia).
    split; [lia | intros _; lia].
Qed.

(** X2.  [free_size()] is [size() - used_size()] while the counter is within
    the capacity; once the counter is above it, the subtraction wraps and
    [free_size()] is the modulus of [size_t] less the excess. *)
Theorem free_size_of_used (m : ETMemoryAllocator.t) :
  is_size_t (ETMemoryAllocator.used_size m) ->
  is_size_t (MemoryAllocator.size (ETMemoryAllocator.base m)) ->
  (ETMemoryAllocator.used_size m <= MemoryAllocator.size (ETMemoryAllocator.base m) ->
   ETMemoryAllocator.free_size m
     = MemoryAllocator.size (ETMemoryAllocator.base m) - ETMemoryAllocator.used_size m) /\
  (MemoryAllocator.size (ETMemoryAllocator.base m) < ETMemoryAllocator.used_size m ->
   ETMemoryAllocator.free_size m
     = SIZE_MODULUS
       - (ETMemoryAllocator.used_size m - MemoryAllocator.size (ETMemoryAllocator.base m))).
Proof.
  unfold ETMemoryAllocator.free_size, ETMemoryAllocator.used_size, size_sub, to_size_t,
    is_size_t.
  intros Hused Hcap. split; intros Hcmp.
  - apply Z.mod_small. lia.
  - symmetry. apply Z.mod_unique with (q := -1); lia.
Qed.

(** One call: the pointer and the arena are those of the base allocator. *)
Lemma allocate_base (m : ETMemoryAllocator.t) (size alignment : Z) :
  fst (ETMemoryAllocator.allocate m size alignment)
    = fst (MemoryAllocator.allocate (ETMemoryAllocator.base m) size alignment) /\
  ETMemoryAllocator.base (snd (ETMemoryAllocator.allocate m size alignment))
    = snd (MemoryAllocator.allocate (ETMemoryAllocator.base m) size alignment).
Proof.
  unfold ETMemoryAllocator.allocate.
  destruct (MemoryAllocator.allocate _ _ _) as [[q|] base']; [|auto].
  destruct (_ =? 0); auto.
Qed.

(** X3.  The counter has no part in the allocation: over any sequence of
    requests the arena of the [ETMemoryAllocator] is the one the base
    allocator alone reaches, whatever the counter held at the start. *)
Theorem allocate_all_base (reqs : list (Z * Z)) (m : ETMemoryAllocator.t) :
  ETMemoryAllocator.base (ETMemoryAllocator.allocate_all m reqs)
    = base_allocate_all (ETMemoryAllocator.base m) reqs.
Proof.
  revert m. induction reqs as [|[size alignment] reqs IH]; intros m; simpl.
  - reflexivity.
  - rewrite IH. f_equal. apply allocate_base.
Qed.

End Accounting.

(** ** The paths of [createInputTensor] and [runInference] *)

Section LoaderBehaviour.
Context `{Platform} `{Runtime}.

Abbreviation loader := ProgramLoader.t.

(** A call of [createInputTensor] either fails before it has changed
    anything, or has stored the slot and called [set_input], whose status it
    returns. *)
Lemma createInputTensor_shape (s s' : loader) (data : list float) (size input_index : Z)
    (e : Error) :
  ProgramLoader.createInputTensor s data size input_index = Some (e, s') ->
  (e <> Ok /\ s' = s) \/
  (exists method tensor_meta state allocations,
     ProgramLoader.get_method s = Some method /\
     input_tensor_meta (method_meta method) input_index = ResOk tensor_meta /\
     ti_nbytes tensor_meta = size_mul size sizeof_float /\
     input_index < 2 /\
     Method_set_input method
       (EValue_Tensor (ProgramLoader.input_tensor tensor_meta data)) input_index
       = (e, state, allocations) /\
     s' = after_set_input s tensor_meta data input_index method state allocations).
Proof.
  unfold ProgramLoader.createInputTensor.
  destruct (ProgramLoader.isLoaded s) eqn:Hloaded; simpl;
    [|intros [= <- <-]; left; split; [discriminate | reflexivity]].
  destruct (isLoaded_get_method s Hloaded) as (method & _ & Hget). rewrite Hget. simpl.
  destruct (input_tensor_meta (method_meta method) input_index) as [tensor_meta|e0] eqn:Hmeta.
  2: { intros [= <- <-]. left. split; [apply Result_error_ResErr | reflexivity]. }
  destruct (size_mul size sizeof_float =? ti_nbytes tensor_meta) eqn:Hbytes; simpl;
    [|intros [= <- <-]; left; split; [discriminate | reflexivity]].
  destruct (2 <=? input_index) eqn:Hindex;
    [intros [= <- <-]; left; split; [discriminate | reflexivity]|].
  destruct (Method_set_input method _ input_index) as [[error state] allocations] eqn:Hset.
  intros Hret. right. exists method, tensor_meta, state, allocations.
  apply Z.eqb_eq in Hbytes. apply Z.leb_gt in Hindex.
  assert (e = error /\ s' = after_set_input s tensor_meta data input_index method state
                               allocations) as [-> ->].
  { destruct (decide (error = Ok)) as [->|]; injection Hret as <- <-; auto. }
  repeat split; auto.
Qed.

(** What binding a slot leaves alone, and what it adds. *)
Lemma after_set_input_frame (s : loader) (tensor_meta : TensorInfo) (data : list float)
    (input_index : Z) (method : Method) (state : MethodState)
    (allocations : list AllocatorCall) :
  let s' := after_set_input s tensor_meta data input_index method state allocations in
  ProgramLoader.initialized_ s' = ProgramLoader.initialized_ s /\
  ProgramLoader.program_ s' = ProgramLoader.program_ s /\
  ProgramLoader.memory_manager_ s' = ProgramLoader.memory_manager_ s /\
  ProgramLoader.planned_memory_ s' = ProgramLoader.planned_memory_ s /\
  ProgramLoader.planned_buffers_ s' = ProgramLoader.planned_buffers_ s /\
  ProgramLoader.planned_spans_ s' = ProgramLoader.planned_spans_ s /\
  ProgramLoader.calls_ s' = ProgramLoader.calls_ s ++ [Call_set_input input_index] /\
  ProgramLoader.get_method s'
    = Some {| method_meta := method_meta method; method_state := state |}.
Proof.
  unfold after_set_input.
  match goal with
  | |- context [ProgramLoader.runtime_allocations ?s0 allocations] =>
      destruct (runtime_allocations_frame allocations s0) as (ma & ta & ->)
  end.
  simpl. repeat split; reflexivity.
Qed.

Lemma after_execute_frame (s : loader) (method : Method) (state : MethodState)
    (allocations : list AllocatorCall) :
  let s' := ProgramLoader.after_execute s method state allocations in
  ProgramLoader.initialized_ s' = ProgramLoader.initialized_ s /\
  ProgramLoader.program_ s' = ProgramLoader.program_ s /\
  ProgramLoader.memory_manager_ s' = ProgramLoader.memory_manager_ s /\
  ProgramLoader.planned_memory_ s' = ProgramLoader.planned_memory_ s /\
  ProgramLoader.planned_buffers_ s' = ProgramLoader.planned_buffers_ s /\
  ProgramLoader.planned_spans_ s' = ProgramLoader.planned_spans_ s /\
  ProgramLoader.calls_ s' = ProgramLoader.calls_ s ++ [Call_execute] /\
  ProgramLoader.get_method s'
    = Some {| method_meta := method_meta method; method_state := state |}.
Proof.
  unfold ProgramLoader.after_execute.
  match goal with
  | |- context [ProgramLoader.runtime_allocations ?s0 allocations] =>
      destruct (runtime_allocations_frame allocations s0) as (ma & ta & ->)
  end.
  simpl. repeat split; reflexivity.
Qed.

(** [createInputTensor] is defined on every loader. *)
Lemma createInputTensor_defined (s : loader) (data : list float) (size input_index : Z) :
  exists e s', ProgramLoader.createInputTensor s data size input_index = Some (e, s').
Proof.
  unfold ProgramLoader.createInputTensor.
  destruct (ProgramLoader.isLoaded s) eqn:Hloaded; simpl; [|eauto].
  destruct (isLoaded_get_method s Hloaded) as (method & _ & ->). simpl.
  destruct (input_tensor_meta _ _); [|eauto].
  destruct (negb _); [eauto|].
  destruct (2 <=? input_index); [eauto|].
  destruct (Method_set_input _ _ _) as [[error state] allocations].
  destruct (decide (error = Ok)); eauto.
Qed.

(** A slot that was bound leaves a loaded method behind. *)
Lemma createInputTensor_Ok_method (s s' : loader) (data : list float)
    (size input_index : Z) :
  ProgramLoader.createInputTensor s data size input_index = Some (Ok, s') ->
  exists method, ProgramLoader.get_method s' = Some method.
Proof.
  intros Hbind.
  apply createInputTensor_shape in Hbind
    as [[Hne _] | (method & tensor_meta & state & allocations & _ & _ & _ & _ & _ & ->)].
  - contradiction.
  - eexists. apply after_set_input_frame.
Qed.

(** Every return of [runInference] is one of the four paths. *)
Lemma runInference_path (s s' : loader) (input1 input2 : list float) (input_size : Z)
    (output output' : list float) (output_size : Z) (e : Error) :
  ProgramLoader.runInference s input1 input2 input_size output output_size
    = Some (e, s', output') ->
  inference_path s input1 input2 input_size output output_size e s' output'.
Proof.
  unfold ProgramLoader.runInference.
  destruct (ProgramLoader.isLoaded s) eqn:Hloaded; simpl;
    [|intros [= <- <- <-]; apply path_not_loaded; exact Hloaded].
  destruct (ProgramLoader.createInputTensor s input1 input_size 0)
    as [[e1 s1]|] eqn:Hbind0; simpl; [|discriminate].
  destruct (decide (e1 = Ok)) as [->|Hfail1];
    [|intros [= <- <- <-]; eapply path_first_input; eauto].
  destruct (ProgramLoader.createInputTensor s1 input2 input_size 1)
    as [[e2 s2]|] eqn:Hbind1; simpl; [|discriminate].
  destruct (decide (e2 = Ok)) as [->|Hfail2];
    [|intros [= <- <- <-]; eapply path_second_input; eauto].
  destruct (ProgramLoader.get_method s2) as [method|] eqn:Hget; simpl; [|discriminate].
  destruct (Method_execute method) as [[e0 state] allocations] eqn:Hexec.
  intros Hret.
  assert (Hpath : forall r : Error * list float,
            r = (if decide (e0 = Ok) then
                   match Method_get_output
                           {| method_meta := method_meta method; method_state := state |} 0
                   with
                   | EValue_Tensor output_tensor =>
                       if output_size <? to_size_t (numel output_tensor)
                       then (InvalidArgument, output)
                       else (Ok, memcpy output (impl_data output_tensor)
                                   (size_mul (to_size_t (numel output_tensor)) sizeof_float))
                   | _ => (InvalidArgument, output)
                   end
                 else (e0, output)) ->
            inference_path s input1 input2 input_size output output_size r.1
              (ProgramLoader.after_execute s2 method state allocations) r.2).
  { intros [e' out'] Hr. simpl. eapply path_executed; eauto. }
  destruct (decide (e0 = Ok)).
  - destruct (Method_get_output _ 0);
      try (injection Hret as <- <- <-; exact (Hpath (_, _) eq_refl)).
    destruct (_ <? _); injection Hret as <- <- <-; exact (Hpath (_, _) eq_refl).
  - injection Hret as <- <- <-. exact (Hpath (_, _) eq_refl).
Qed.

(** The embedding of [runInference] yields a result on every loader: it
    reaches [get_method] only with a method in [method_].  (What the method
    itself refers to is the runtime's, and not part of the embedding.) *)
Lemma runInference_returns (s : loader) (input1 input2 : list float) (input_size : Z)
    (output : list float) (output_size : Z) :
  exists e s' output',
    ProgramLoader.runInference s input1 input2 input_size output output_size
      = Some (e, s', output').
Proof.
  unfold ProgramLoader.runInference.
  destruct (ProgramLoader.isLoaded s); simpl; [|eauto].
  destruct (createInputTensor_defined s input1 input_size 0) as (e1 & s1 & Hbind0).
  rewrite Hbind0. simpl.
  destruct (decide (e1 = Ok)) as [->|]; [|eauto].
  destruct (createInputTensor_defined s1 input2 input_size 1) as (e2 & s2 & Hbind1).
  rewrite Hbind1. simpl.
  destruct (decide (e2 = Ok)) as [->|]; [|eauto].
  destruct (createInputTensor_Ok_method _ _ _ _ _ Hbind1) as (method & ->). simpl.
  destruct (Method_execute method) as [[e0 state] allocations].
  destruct (decide (e0 = Ok)); [|eauto].
  destruct (Method_get_output _ 0); eauto.
  destruct (_ <? _); eauto.
Qed.

(** X5.  Whenever [runInference] returns a status other than [Ok], the
    caller's output buffer is what it was. *)
Theorem runInference_failure_keeps_output (s s' : loader) (input1 input2 : list float)
    (input_size : Z) (output output' : list float) (output_size : Z) (e : Error) :
  ProgramLoader.runInference s input1 input2 input_size output output_size
    = Some (e, s', output') ->
  e <> Ok ->
  output' = output.
Proof.
  intros Hrun Hfail. apply runInference_path in Hrun.
  destruct Hrun as [| | |e e0 s1 s2 method state allocations output' _ _ _ _ Hret];
    try reflexivity.
  destruct (decide (e0 = Ok)); [|congruence].
  destruct (Method_get_output _ 0); try congruence.
  destruct (_ <? _); congruence.
Qed.

(** X6.  The calls [runInference] makes into the runtime are, in this order,
    [set_input] for slot 0, [set_input] for slot 1 and [execute], or a prefix
    of these; a return of [Ok] has made all three. *)
Theorem runInference_calls (s s' : loader) (input1 input2 : list float)
    (input_size : Z) (output output' : list float) (output_size : Z) (e : Error) :
  ProgramLoader.runInference s input1 input2 input_size output output_size
    = Some (e, s', output') ->
  exists calls,
    ProgramLoader.calls_ s' = ProgramLoader.calls_ s ++ calls /\
    calls `prefix_of` [Call_set_input 0; Call_set_input 1; Call_execute] /\
    (e = Ok -> calls = [Call_set_input 0; Call_set_input 1; Call_execute]).
Proof.
  intros Hrun. apply runInference_path in Hrun.
  assert (Hbound : forall (s0 s1 : loader) data i e1,
            ProgramLoader.createInputTensor s0 data input_size i = Some (e1, s1) ->
            (e1 <> Ok /\ ProgramLoader.calls_ s1 = ProgramLoader.calls_ s0) \/
            ProgramLoader.calls_ s1 = ProgramLoader.calls_ s0 ++ [Call_set_input i]).
  { intros s0 s1 data i e1 Hbind.
    apply createInputTensor_shape in Hbind
      as [[Hne ->] | (method & tensor_meta & state & allocations & _ & _ & _ & _ & _ & ->)].
    - left. auto.
    - right. apply after_set_input_frame. }
  destruct Hrun as [Hnot|e s1 Hbind0 Hfail|e s1 s2 Hbind0 Hbind1 Hfail
                   |e e0 s1 s2 method state allocations output' Hbind0 Hbind1 Hget Hexec Hret].
  - exists []. rewrite app_nil_r. split; [reflexivity|].
    split; [apply prefix_nil | discriminate].
  - destruct (Hbound _ _ _ _ _ Hbind0) as [[_ Hcalls]|Hcalls].
    + exists []. rewrite app_nil_r. split; [exact Hcalls|].
      split; [apply prefix_nil | intros; contradiction].
    + exists [Call_set_input 0]. split; [exact Hcalls|].
      split; [exists [Call_set_input 1; Call_execute]; reflexivity | intros; contradiction].
  - destruct (Hbound _ _ _ _ _ Hbind0) as [[Hne _]|Hcalls0]; [contradiction|].
    destruct (Hbound _ _ _ _ _ Hbind1) as [[_ Hcalls1]|Hcalls1]; rewrite Hcalls1, Hcalls0.
    + exists [Call_set_input 0]. split; [reflexivity|].
      split; [exists [Call_set_input 1; Call_execute]; reflexivity | intros; contradiction].
    + exists [Call_set_input 0; Call_set_input 1]. rewrite <- app_assoc.
      split; [reflexivity|].
      split; [exists [Call_execute]; reflexivity | intros; contradiction].
  - destruct (Hbound _ _ _ _ _ Hbind0) as [[Hne _]|Hcalls0]; [contradiction|].
    destruct (Hbound _ _ _ _ _ Hbind1) as [[Hne _]|Hcalls1]; [contradiction|].
    exists [Call_set_input 0; Call_set_input 1; Call_execute].
    split; [|split; [reflexivity | auto]].
    destruct (after_execute_frame s2 method state allocations)
      as (_ & _ & _ & _ & _ & _ & -> & _).
    rewrite Hcalls1, Hcalls0, <- !app_assoc. reflexivity.
Qed.

(** What a call of [createInputTensor] leaves alone. *)
Lemma createInputTensor_frame (s s' : loader) (data : list float) (size input_index : Z)
    (e : Error) :
  ProgramLoader.createInputTensor s data size input_index = Some (e, s') ->
  ProgramLoader.initialized_ s' = ProgramLoader.initialized_ s /\
  ProgramLoader.program_ s' = ProgramLoader.program_ s /\
  ProgramLoader.memory_manager_ s' = ProgramLoader.memory_manager_ s /\
  ProgramLoader.planned_memory_ s' = ProgramLoader.planned_memory_ s /\
  ProgramLoader.planned_buffers_ s' = ProgramLoader.planned_buffers_ s /\
  ProgramLoader.planned_spans_ s' = ProgramLoader.planned_spans_ s /\
  ProgramLoader.isLoaded s' = ProgramLoader.isLoaded s.
Proof.
  intros Hbind.
  apply createInputTensor_shape in Hbind
    as [[_ ->] | (method & tensor_meta & state & allocations & Hget & _ & _ & _ & _ & ->)].
  - repeat split; reflexivity.
  - destruct (after_set_input_frame s tensor_meta data input_index method state allocations)
      as (Hi & Hp & Hm & Hpm & Hb & Hs & _ & Hget').
    apply get_method_isLoaded in Hget as [_ ->].
    apply get_method_isLoaded in Hget' as [_ ->].
    repeat split; assumption.
Qed.

(** X7.  [runInference], whatever it returns, leaves the loader initialized
    or not and loaded or not as it was, and does not touch the program, the
    memory manager, the planned memory or the planned buffers and spans. *)
Theorem runInference_frame (s s' : loader) (input1 input2 : list float)
    (input_size : Z) (output output' : list float) (output_size : Z) (e : Error) :
  ProgramLoader.runInference s input1 input2 input_size output output_size
    = Some (e, s', output') ->
  ProgramLoader.initialized_ s' = ProgramLoader.initialized_ s /\
  ProgramLoader.program_ s' = ProgramLoader.program_ s /\
  ProgramLoader.memory_manager_ s' = ProgramLoader.memory_manager_ s /\
  ProgramLoader.planned_memory_ s' = ProgramLoader.planned_memory_ s /\
  ProgramLoader.planned_buffers_ s' = ProgramLoader.planned_buffers_ s /\
  ProgramLoader.planned_spans_ s' = ProgramLoader.planned_spans_ s /\
  ProgramLoader.isLoaded s' = ProgramLoader.isLoaded s.
Proof.
  intros Hrun. apply runInference_path in Hrun.
  destruct Hrun as [Hnot|e s1 Hbind0 Hfail|e s1 s2 Hbind0 Hbind1 Hfail
                   |e e0 s1 s2 method state allocations output' Hbind0 Hbind1 Hget Hexec Hret].
  - repeat split; reflexivity.
  - exact (createInputTensor_frame _ _ _ _ _ _ Hbind0).
  - destruct (createInputTensor_frame _ _ _ _ _ _ Hbind0)
      as (Hi0 & Hp0 & Hm0 & Hpm0 & Hb0 & Hs0 & Hl0).
    destruct (createInputTensor_frame _ _ _ _ _ _ Hbind1)
      as (Hi1 & Hp1 & Hm1 & Hpm1 & Hb1 & Hs1 & Hl1).
    repeat split; congruence.
  - destruct (createInputTensor_frame _ _ _ _ _ _ Hbind0)
      as (Hi0 & Hp0 & Hm0 & Hpm0 & Hb0 & Hs0 & Hl0).
    destruct (createInputTensor_frame _ _ _ _ _ _ Hbind1)
      as (Hi1 & Hp1 & Hm1 & Hpm1 & Hb1 & Hs1 & Hl1).
    destruct (after_execute_frame s2 method state allocations)
      as (Hi2 & Hp2 & Hm2 & Hpm2 & Hb2 & Hs2 & _ & Hget2).
    apply get_method_isLoaded in Hget as [_ Hl2].
    apply get_method_isLoaded in Hget2 as [_ Hl3].
    repeat split; congruence.
Qed.

(** X8.  When both inputs are bound and [execute] fails, [runInference]
    returns the error of [execute] unchanged and the caller's output buffer
    as it was. *)
Theorem runInference_execute_failure (s s1 s2 : loader) (method : Method)
    (state : MethodState) (allocations : list AllocatorCall) (e : Error)
    (input1 input2 : list float) (input_size : Z) (output : list float) (output_size : Z) :
  ProgramLoader.createInputTensor s input1 input_size 0 = Some (Ok, s1) ->
  ProgramLoader.createInputTensor s1 input2 input_size 1 = Some (Ok, s2) ->
  ProgramLoader.get_method s2 = Some method ->
  Method_execute method = (e, state, allocations) ->
  e <> Ok ->
  ProgramLoader.runInference s input1 input2 input_size output output_size
    = Some (e, ProgramLoader.after_execute s2 method state allocations, output).
Proof.
  intros Hbind0 Hbind1 Hget Hexec Hfail.
  pose proof (createInputTensor_Ok_loaded _ _ _ _ _ Hbind0) as Hloaded.
  unfold ProgramLoader.runInference. rewrite Hloaded. simpl.
  rewrite Hbind0. simpl. rewrite Hbind1. simpl. rewrite Hget. simpl. rewrite Hexec.
  destruct (decide (e = Ok)); [contradiction | reflexivity].
Qed.

(** X9.  When both inputs are bound and the execution succeeds but output 0
    of the method is not a tensor, [runInference] returns [InvalidArgument]
    and the caller's output buffer as it was. *)
Theorem runInference_output_not_tensor (s s1 s2 : loader) (method : Method)
    (state : MethodState) (allocations : list AllocatorCall)
    (input1 input2 : list float) (input_size : Z) (output : list float) (output_size : Z) :
  ProgramLoader.createInputTensor s input1 input_size 0 = Some (Ok, s1) ->
  ProgramLoader.createInputTensor s1 input2 input_size 1 = Some (Ok, s2) ->
  ProgramLoader.get_method s2 = Some method ->
  Method_execute method = (Ok, state, allocations) ->
  isTensor (Method_get_output
              {| method_meta := method_meta method; method_state := state |} 0) = false ->
  ProgramLoader.runInference s input1 input2 input_size output output_size
    = Some (InvalidArgument, ProgramLoader.after_execute s2 method state allocations, output).
Proof.
  intros Hbind0 Hbind1 Hget Hexec Hout.
  rewrite (runInference_executed s s1 s2 method state allocations) by assumption.
  destruct (Method_get_output _ 0); try reflexivity. discriminate.
Qed.

(** X10.  A call of [createInputTensor] for slot 0 or 1 that passes the size
    check leaves in that slot the declared sizes, the declared dimension
    order and a [Float] tensor over the caller's data, also when [set_input]
    then fails, and leaves the other slot as it was. *)
Theorem createInputTensor_stores_slot (s : loader) (method : Method)
    (tensor_meta : TensorInfo) (data : list float) (size input_index : Z) :
  ProgramLoader.get_method s = Some method ->
  input_tensor_meta (method_meta method) input_index = ResOk tensor_meta ->
  ti_nbytes tensor_meta = size_mul size sizeof_float ->
  0 <= input_index < 2 ->
  length (ProgramLoader.sizes_storage s) = 2%nat ->
  length (ProgramLoader.dim_order_storage s) = 2%nat ->
  length (ProgramLoader.tensor_impls s) = 2%nat ->
  exists e s',
    ProgramLoader.createInputTensor s data size input_index = Some (e, s') /\
    ProgramLoader.sizes_storage s' !! Z.to_nat input_index = Some (ti_sizes tensor_meta) /\
    ProgramLoader.dim_order_storage s' !! Z.to_nat input_index
      = Some (ti_dim_order tensor_meta) /\
    ProgramLoader.tensor_impls s' !! Z.to_nat input_index
      = Some (Some {| impl_type := Float;
                      impl_dim := Z.of_nat (length (ti_sizes tensor_meta));
                      impl_sizes := ti_sizes tensor_meta;
                      impl_data := data;
                      impl_dim_order := ti_dim_order tensor_meta |}) /\
    (forall j : nat, j <> Z.to_nat input_index ->
       ProgramLoader.sizes_storage s' !! j = ProgramLoader.sizes_storage s !! j /\
       ProgramLoader.dim_order_storage s' !! j = ProgramLoader.dim_order_storage s !! j /\
       ProgramLoader.tensor_impls s' !! j = ProgramLoader.tensor_impls s !! j).
Proof.
  intros Hget Hmeta Hbytes Hindex Hsizes Hdims Himpls.
  destruct (get_method_isLoaded s method Hget) as [_ Hloaded].
  unfold ProgramLoader.createInputTensor. rewrite Hloaded, Hget. simpl.
  rewrite Hmeta, Hbytes, Z.eqb_refl. simpl.
  replace (2 <=? input_index) with false by (symmetry; apply Z.leb_gt; lia).
  destruct (Method_set_input method _ input_index) as [[error state] allocations].
  match goal with
  | |- context [ProgramLoader.runtime_allocations ?s0 allocations] =>
      destruct (runtime_allocations_frame allocations s0) as (ma & ta & ->)
  end.
  eexists error, _.
  split; [destruct (decide (error = Ok)) as [->|]; reflexivity|]. simpl.
  assert (Hslot : (Z.to_nat input_index < 2)%nat) by lia.
  split; [apply list_lookup_insert_eq; lia|].
  split; [apply list_lookup_insert_eq; lia|].
  split; [apply list_lookup_insert_eq; lia|].
  intros j Hj. rewrite !list_lookup_insert_ne by congruence. auto.
Qed.

End LoaderBehaviour.

(** ** The paths of [loadProgram] and the loaders a program reaches *)

Section LoadBehaviour.
Context `{Platform} `{Runtime}.

Abbreviation loader := ProgramLoader.t.

(** Every return of [loadProgram] is one of the five paths. *)
Lemma loadProgram_path (s s' : loader) (e : Error) :
  ProgramLoader.loadProgram s = Some (e, s') -> load_path s e s'.
Proof.
  unfold ProgramLoader.loadProgram.
  destruct (ProgramLoader.initialized_ s) eqn:Hinit; simpl;
    [|intros [= <- <-]; apply load_not_initialized; exact Hinit].
  destruct (Program_load model_pte) as [program|e0] eqn:Hprogram;
    [|intros [= <- <-]; apply load_program_failed; assumption].
  destruct (Program_method_meta program "forward") as [method_meta|e0] eqn:Hmeta;
    [|intros [= <- <-]; eapply load_method_meta_failed; eassumption].
  destruct (ProgramLoader.allocate_planned_buffers method_meta _ _)
    as [[[e1 s_loop]|s_loop]|] eqn:Hloop; simpl; [| |discriminate].
  { intros [= <- <-]. eapply load_buffers_failed; eassumption. }
  destruct (ProgramLoader.method_allocator_ s_loop) as [ma|] eqn:Hma; [|discriminate].
  simpl.
  destruct (ProgramLoader.temp_allocator_ s_loop) as [ta|] eqn:Hta; [|discriminate].
  simpl.
  destruct (Program_load_method program "forward" _) as [method_result allocations]
    eqn:Hmethod.
  intros Hret.
  pose proof (load_method_called s program method_meta s_loop ma ta method_result
                allocations Hinit Hprogram Hmeta Hloop Hma Hta Hmethod) as Hpath.
  destruct method_result as [state|e0]; injection Hret as <- <-; exact Hpath.
Qed.

(** A call of [allocate] keeps the counter a [size_t]. *)
Lemma allocate_keeps_range (m : ETMemoryAllocator.t) (size alignment : Z) :
  is_size_t (ETMemoryAllocator.used_ m) ->
  is_size_t (ETMemoryAllocator.used_ (snd (ETMemoryAllocator.allocate m size alignment))).
Proof.
  intros Hused. unfold ETMemoryAllocator.allocate.
  destruct (MemoryAllocator.allocate _ _ _) as [[q|] base']; [|exact Hused].
  destruct (_ =? 0); simpl; apply to_size_t_range.
Qed.

Lemma counter_in_range_allocate (a : option ETMemoryAllocator.t) (size alignment : Z) :
  counter_in_range a ->
  counter_in_range
    ((fun m => snd (ETMemoryAllocator.allocate m size alignment)) <$> a).
Proof.
  intros Ha m'. destruct a as [m|]; simpl; [|discriminate].
  intros [= <-]. apply allocate_keeps_range, Ha. reflexivity.
Qed.

(** The runtime's allocations keep both allocators in place and their
    counters in range, and reach nothing else. *)
Lemma runtime_allocations_allocators (cs : list AllocatorCall) (s : loader) :
  exists ma ta,
    ProgramLoader.runtime_allocations s cs = ProgramLoader.set_allocators s ma ta /\
    (is_Some (ProgramLoader.method_allocator_ s) -> is_Some ma) /\
    (is_Some (ProgramLoader.temp_allocator_ s) -> is_Some ta) /\
    (counter_in_range (ProgramLoader.method_allocator_ s) -> counter_in_range ma) /\
    (counter_in_range (ProgramLoader.temp_allocator_ s) -> counter_in_range ta).
Proof.
  unfold ProgramLoader.runtime_allocations.
  revert s. induction cs as [|c cs IH]; intros s; simpl.
  - exists (ProgramLoader.method_allocator_ s), (ProgramLoader.temp_allocator_ s).
    split; [destruct s; reflexivity | auto].
  - destruct (IH (ProgramLoader.runtime_allocate s c)) as (ma & ta & -> & Hm & Ht & Hrm & Hrt).
    exists ma, ta. split; [destruct c; reflexivity|].
    destruct c as [size alignment|size alignment]; simpl in *.
    + split; [intros Hs; apply Hm, fmap_is_Some, Hs|]. split; [exact Ht|].
      split; [intros Hr; apply Hrm, counter_in_range_allocate, Hr | exact Hrt].
    + split; [exact Hm|]. split; [intros Hs; apply Ht, fmap_is_Some, Hs|].
      split; [exact Hrm | intros Hr; apply Hrt, counter_in_range_allocate, Hr].
Qed.

(** The loop of [loadProgram], however it ends, has appended buffers and
    spans in step and changed the method allocator, nothing else. *)
Lemma allocate_planned_buffers_shape (method_meta : MethodMeta) (ids : list Z)
    (s : loader) (r : Error * loader + loader) :
  ProgramLoader.allocate_planned_buffers method_meta ids s = Some r ->
  exists ma buffers spans,
    match r with inl (_, s') => s' | inr s' => s' end
      = ProgramLoader.set_planned
          (ProgramLoader.set_allocators s ma (ProgramLoader.temp_allocator_ s))
          (ProgramLoader.planned_buffers_ s ++ buffers)
          (ProgramLoader.planned_spans_ s ++ spans) /\
    span_data <$> spans = buffers /\
    (is_Some (ProgramLoader.method_allocator_ s) -> is_Some ma) /\
    (counter_in_range (ProgramLoader.method_allocator_ s) -> counter_in_range ma).
Proof.
  revert s r. induction ids as [|id ids IH]; intros s r; simpl.
  - intros [= <-]. exists (ProgramLoader.method_allocator_ s), [], [].
    rewrite !app_nil_r. split; [destruct s; reflexivity | auto].
  - destruct (memory_planned_buffer_size method_meta id) as [declared|e].
    + destruct (ProgramLoader.method_allocator_ s) as [a|] eqn:Ha; [|discriminate]. simpl.
      destruct (ETMemoryAllocator.allocate a (to_size_t declared) kDefaultAlignment)
        as [[buffer|] a'] eqn:Hcall.
      * intros Hrest. apply IH in Hrest as (ma & buffers & spans & -> & Hstep & Hm & Hr).
        simpl in *.
        exists ma, (buffer :: buffers),
               ({| span_data := buffer; span_size := to_size_t declared |} :: spans).
        rewrite <- !app_assoc. simpl.
        split; [reflexivity|]. split; [rewrite <- Hstep; reflexivity|].
        split; [intros _; apply Hm; eauto|].
        intros Hrange. apply Hr. intros m' [= <-].
        replace a' with (snd (ETMemoryAllocator.allocate a (to_size_t declared)
                                kDefaultAlignment)) by (rewrite Hcall; reflexivity).
        apply allocate_keeps_range, Hrange. reflexivity.
      * intros [= <-]. exists (Some a'), [], []. rewrite !app_nil_r.
        split; [destruct s; reflexivity|]. split; [reflexivity|].
        split; [eauto|].
        intros Hrange m' [= <-].
        replace a' with (snd (ETMemoryAllocator.allocate a (to_size_t declared)
                                kDefaultAlignment)) by (rewrite Hcall; reflexivity).
        apply allocate_keeps_range, Hrange. reflexivity.
    + intros [= <-]. exists (ProgramLoader.method_allocator_ s), [], [].
      rewrite !app_nil_r. split; [destruct s; reflexivity | auto].
Qed.

(** With a method allocator in place the loop dereferences no null pointer. *)
Lemma allocate_planned_buffers_defined (method_meta : MethodMeta) (ids : list Z)
    (s : loader) :
  is_Some (ProgramLoader.method_allocator_ s) ->
  is_Some (ProgramLoader.allocate_planned_buffers method_meta ids s).
Proof.
  revert s. induction ids as [|id ids IH]; intros s [a Ha]; simpl; [eauto|].
  destruct (memory_planned_buffer_size method_meta id) as [declared|e]; [|eauto].
  rewrite Ha. simpl.
  destruct (ETMemoryAllocator.allocate a (to_size_t declared) kDefaultAlignment)
    as [[buffer|] a']; [|eauto].
  apply IH. simpl. eauto.
Qed.

Lemma well_formed_new : well_formed ProgramLoader.new.
Proof.
  unfold well_formed, counter_in_range, ProgramLoader.isLoaded. simpl.
  repeat split; try discriminate; reflexivity.
Qed.

Lemma well_formed_initialize (s : loader) :
  well_formed s -> well_formed (ProgramLoader.initialize s).
Proof.
  intros Hwf. unfold ProgramLoader.initialize.
  destruct (ProgramLoader.initialized_ s) eqn:Hinit; [exact Hwf|].
  destruct Hwf as (_ & _ & _ & Hloaded & Hstep & Hl1 & Hl2 & Hl3).
  unfold well_formed, counter_in_range, ProgramLoader.isLoaded in *. simpl.
  pose proof SIZE_MODULUS_pos.
  split; [intros _; split; eauto|].
  split; [intros m [= <-]; simpl; unfold is_size_t; lia|].
  split; [intros m [= <-]; simpl; unfold is_size_t; lia|].
  split; [|auto].
  intros Hl. destruct (Hloaded Hl) as (Habs & _). congruence.
Qed.

(** [loadProgram] keeps a loader well formed, whichever way it returns. *)
Lemma well_formed_load_path (s s' : loader) (e : Error) :
  well_formed s -> load_path s e s' -> well_formed s'.
Proof.
  intros Hwf Hpath.
  pose proof Hwf as (Hinit & Hrm & Hrt & Hloaded & Hstep & Hl1 & Hl2 & Hl3).
  destruct Hpath as [Hnot|e Hi Hprogram|program e Hi Hprogram Hmeta
                    |program method_meta e s_loop Hi Hprogram Hmeta Hloop
                    |program method_meta s_loop ma ta method_result allocations
                       Hi Hprogram Hmeta Hloop Hma Hta Hmethod].
  - exact Hwf.
  - unfold well_formed, ProgramLoader.isLoaded in *. simpl. tauto.
  - unfold well_formed, ProgramLoader.isLoaded in *. simpl.
    intuition eauto.
  - apply allocate_planned_buffers_shape in Hloop
      as (ma & buffers & spans & Hs_loop & Hstep' & Hm & Hr).
    simpl in Hs_loop, Hm, Hr. subst s_loop.
    unfold well_formed, ProgramLoader.isLoaded in *. simpl.
    intuition eauto.
  - apply allocate_planned_buffers_shape in Hloop
      as (ma0 & buffers & spans & Hs_loop & Hstep' & Hm & Hr).
    simpl in Hs_loop, Hm, Hr.
    unfold after_load_method.
    match goal with
    | |- context [ProgramLoader.runtime_allocations ?s0 allocations] =>
        destruct (runtime_allocations_allocators allocations s0)
          as (ma' & ta' & -> & Hm' & Ht' & Hrm' & Hrt')
    end.
    subst s_loop. simpl in *.
    assert (Hma' : is_Some ma') by (apply Hm'; eauto).
    assert (Hta' : is_Some ta') by (apply Ht'; eauto).
    unfold well_formed, ProgramLoader.isLoaded in *.
    destruct method_result as [state|e0]; simpl; intuition eauto.
Qed.

Lemma well_formed_after_set_input (s : loader) (tensor_meta : TensorInfo)
    (data : list float) (input_index : Z) (method : Method) (state : MethodState)
    (allocations : list AllocatorCall) :
  well_formed s ->
  ProgramLoader.get_method s = Some method ->
  well_formed (after_set_input s tensor_meta data input_index method state allocations).
Proof.
  intros (Hinit & Hrm & Hrt & Hloaded & Hstep & Hl1 & Hl2 & Hl3) Hget.
  apply get_method_isLoaded in Hget as [_ Hl].
  destruct (Hloaded Hl) as (Hi & Hp & Hmm & Hpm).
  unfold after_set_input.
  match goal with
  | |- context [ProgramLoader.runtime_allocations ?s0 allocations] =>
      destruct (runtime_allocations_allocators allocations s0)
        as (ma' & ta' & -> & Hm' & Ht' & Hrm' & Hrt')
  end.
  simpl in *. destruct (Hinit Hi) as [Hma Hta].
  unfold well_formed, ProgramLoader.isLoaded. simpl.
  rewrite !length_insert.
  intuition eauto.
Qed.

Lemma well_formed_after_execute (s : loader) (method : Method) (state : MethodState)
    (allocations : list AllocatorCall) :
  well_formed s ->
  ProgramLoader.get_method s = Some method ->
  well_formed (ProgramLoader.after_execute s method state allocations).
Proof.
  intros (Hinit & Hrm & Hrt & Hloaded & Hstep & Hl1 & Hl2 & Hl3) Hget.
  apply get_method_isLoaded in Hget as [_ Hl].
  destruct (Hloaded Hl) as (Hi & Hp & Hmm & Hpm).
  unfold ProgramLoader.after_execute.
  match goal with
  | |- context [ProgramLoader.runtime_allocations ?s0 allocations] =>
      destruct (runtime_allocations_allocators allocations s0)
        as (ma' & ta' & -> & Hm' & Ht' & Hrm' & Hrt')
  end.
  simpl in *. destruct (Hinit Hi) as [Hma Hta].
  unfold well_formed, ProgramLoader.isLoaded. simpl.
  intuition eauto.
Qed.

Lemma well_formed_createInputTensor (s s' : loader) (data : list float)
    (size input_index : Z) (e : Error) :
  well_formed s ->
  ProgramLoader.createInputTensor s data size input_index = Some (e, s') ->
  well_formed s'.
Proof.
  intros Hwf Hbind.
  apply createInputTensor_shape in Hbind
    as [[_ ->] | (method & tensor_meta & state & allocations & Hget & _ & _ & _ & _ & ->)].
  - exact Hwf.
  - apply well_formed_after_set_input; assumption.
Qed.

Lemma well_formed_inference_path (s s' : loader) (input1 input2 : list float)
    (input_size : Z) (output output' : list float) (output_size : Z) (e : Error) :
  well_formed s ->
  inference_path s input1 input2 input_size output output_size e s' output' ->
  well_formed s'.
Proof.
  intros Hwf Hpath.
  destruct Hpath as [Hnot|e s1 Hbind0 Hfail|e s1 s2 Hbind0 Hbind1 Hfail
                    |e e0 s1 s2 method state allocations output' Hbind0 Hbind1 Hget Hexec Hret].
  - exact Hwf.
  - eapply well_formed_createInputTensor; eassumption.
  - eapply well_formed_createInputTensor; [|eassumption].
    eapply well_formed_createInputTensor; eassumption.
  - apply well_formed_after_execute; [|exact Hget].
    eapply well_formed_createInputTensor; [|eassumption].
    eapply well_formed_createInputTensor; eassumption.
Qed.

(** X12.  Every loader a program reaches from the constructor through
    [initialize], [loadProgram] and [runInference] is well formed, and
    [loadProgram] is defined on it: neither allocator is dereferenced while
    null. *)
Theorem reachable_well_formed (s : loader) :
  reachable s ->
  well_formed s /\ exists e s', ProgramLoader.loadProgram s = Some (e, s').
Proof.
  intros Hreach.
  assert (Hwf : well_formed s).
  { induction Hreach as [|s _ IH|s s' e _ IH Hload
                        |s s' e input1 input2 input_size output output' output_size
                           _ IH Hrun].
    - apply well_formed_new.
    - apply well_formed_initialize, IH.
    - eapply well_formed_load_path; [exact IH | apply loadProgram_path, Hload].
    - eapply well_formed_inference_path; [exact IH | apply runInference_path, Hrun]. }
  split; [exact Hwf|].
  destruct Hwf as (Hinit & Hrm & _).
  unfold ProgramLoader.loadProgram.
  destruct (ProgramLoader.initialized_ s) eqn:Hi; simpl; [|eauto].
  destruct (Program_load model_pte) as [program|e0]; [|eauto].
  destruct (Program_method_meta program "forward") as [method_meta|e0]; [|eauto].
  destruct (Hinit eq_refl) as [Hma [ta Hta]].
  destruct (allocate_planned_buffers_defined method_meta
              (ProgramLoader.buffer_ids (num_memory_planned_buffers method_meta))
              (ProgramLoader.set_planned
                 (ProgramLoader.set_program
                    (ProgramLoader.record_call s Call_Program_load) (Some program)) [] [])
              Hma) as [r Hloop].
  rewrite Hloop. simpl. destruct r as [[e1 s_loop]|s_loop]; [eauto|].
  apply allocate_planned_buffers_shape in Hloop
    as (ma & buffers & spans & Hs_loop & _ & Hm & _).
  simpl in Hs_loop, Hm. subst s_loop. simpl.
  destruct (Hm Hma) as [ma' ->]. rewrite Hta. simpl.
  destruct (Program_load_method program "forward" _) as [[state|e0] allocations]; eauto.
Qed.

(** X13.  [loadProgram] on a loader that was not initialized returns
    [InvalidState] without a call into the runtime and leaves the loader as
    it was. *)
Theorem loadProgram_not_initialized (s : loader) :
  ProgramLoader.initialized_ s = false ->
  ProgramLoader.loadProgram s = Some (InvalidState, s).
Proof.
  intros Hnot. unfold ProgramLoader.loadProgram. rewrite Hnot. reflexivity.
Qed.

Lemma Result_error_Ok {T} (r : Result T) : Result_error r = Ok -> exists v, r = ResOk v.
Proof.
  destruct r as [v|e]; [eauto|]. intros He. destruct (Result_error_ResErr e He).
Qed.

(** X14.  After a [loadProgram] that returned [Ok] the loader is initialized
    and loaded, holds the program, a memory manager and a planned memory over
    exactly the spans of [planned_spans_], and span [i] points at buffer
    [i]. *)
Theorem loadProgram_success_state (s s' : loader) :
  ProgramLoader.loadProgram s = Some (Ok, s') ->
  ProgramLoader.initialized_ s' = true /\
  ProgramLoader.isLoaded s' = true /\
  is_Some (ProgramLoader.program_ s') /\
  ProgramLoader.memory_manager_ s' = true /\
  ProgramLoader.planned_memory_ s' = Some (ProgramLoader.planned_spans_ s') /\
  span_data <$> ProgramLoader.planned_spans_ s' = ProgramLoader.planned_buffers_ s'.
Proof.
  intros Hload. apply loadProgram_path in Hload.
  remember Ok as status eqn:Hstatus.
  destruct Hload as [Hnot|e Hi Hprogram|program e Hi Hprogram Hmeta
                    |program method_meta e s_loop Hi Hprogram Hmeta Hloop
                    |program method_meta s_loop ma ta method_result allocations
                       Hi Hprogram Hmeta Hloop Hma Hta Hmethod].
  - discriminate.
  - destruct (Result_error_ResErr _ Hstatus).
  - destruct (Result_error_ResErr _ Hstatus).
  - destruct (allocate_planned_buffers_exit _ _ _ _ _ Hloop Hstatus).
  - apply Result_error_Ok in Hstatus as [state ->].
    apply allocate_planned_buffers_shape in Hloop
      as (ma0 & buffers & spans & Hs & Hstep & _).
    simpl in Hs. subst s_loop.
    unfold after_load_method.
    match goal with
    | |- context [ProgramLoader.runtime_allocations ?s0 allocations] =>
        destruct (runtime_allocations_frame allocations s0) as (ma' & ta' & ->)
    end.
    unfold ProgramLoader.isLoaded. simpl.
    repeat split; eauto.
Qed.

(** X15.  A [loadProgram] that fails leaves [method_] as it was: a loader
    that was loaded stays loaded with the method of the earlier load, and one
    that was not stays not loaded. *)
Theorem loadProgram_failure_keeps_method (s s' : loader) (e : Error) :
  ProgramLoader.loadProgram s = Some (e, s') ->
  e <> Ok ->
  ProgramLoader.method_ s' = ProgramLoader.method_ s /\
  ProgramLoader.isLoaded s' = ProgramLoader.isLoaded s.
Proof.
  intros Hload Hfail.
  assert (Hmethod : ProgramLoader.method_ s' = ProgramLoader.method_ s).
  { apply loadProgram_isLoaded in Hload.
    destruct (decide (e = Ok)); [contradiction | exact Hload]. }
  split; [exact Hmethod|]. unfold ProgramLoader.isLoaded. rewrite Hmethod. reflexivity.
Qed.

(** X16.  The calls [loadProgram] makes into the runtime are [Program::load]
    and then [load_method], or a prefix of these; a return of [Ok] has made
    both.  It never binds an input or executes the method, and leaves
    [initialized_] as it was. *)
Theorem loadProgram_calls (s s' : loader) (e : Error) :
  ProgramLoader.loadProgram s = Some (e, s') ->
  ProgramLoader.initialized_ s' = ProgramLoader.initialized_ s /\
  exists calls,
    ProgramLoader.calls_ s' = ProgramLoader.calls_ s ++ calls /\
    calls `prefix_of` [Call_Program_load; Call_load_method] /\
    (e = Ok -> calls = [Call_Program_load; Call_load_method]).
Proof.
  intros Hload. apply loadProgram_path in Hload.
  destruct Hload as [Hnot|e Hi Hprogram|program e Hi Hprogram Hmeta
                    |program method_meta e s_loop Hi Hprogram Hmeta Hloop
                    |program method_meta s_loop ma ta method_result allocations
                       Hi Hprogram Hmeta Hloop Hma Hta Hmethod].
  - split; [reflexivity|]. exists []. rewrite app_nil_r.
    split; [reflexivity|]. split; [apply prefix_nil | discriminate].
  - split; [reflexivity|]. exists [Call_Program_load].
    split; [reflexivity|]. split; [exists [Call_load_method]; reflexivity|].
    intros He. destruct (Result_error_ResErr _ He).
  - split; [reflexivity|]. exists [Call_Program_load].
    split; [reflexivity|]. split; [exists [Call_load_method]; reflexivity|].
    intros He. destruct (Result_error_ResErr _ He).
  - pose proof (allocate_planned_buffers_exit _ _ _ _ _ Hloop) as Hne.
    apply allocate_planned_buffers_shape in Hloop as (ma & buffers & spans & Hs & _).
    simpl in Hs. subst s_loop. simpl.
    split; [reflexivity|]. exists [Call_Program_load].
    split; [reflexivity|]. split; [exists [Call_load_method]; reflexivity|].
    intros He. contradiction.
  - apply allocate_planned_buffers_shape in Hloop as (ma0 & buffers & spans & Hs & _).
    simpl in Hs. subst s_loop.
    unfold after_load_method.
    match goal with
    | |- context [ProgramLoader.runtime_allocations ?s0 allocations] =>
        destruct (runtime_allocations_frame allocations s0) as (ma' & ta' & ->)
    end.
    destruct method_result as [state|e0]; simpl;
      (split; [reflexivity|]; exists [Call_Program_load; Call_load_method];
       rewrite <- app_assoc; split; [reflexivity|]; split; [reflexivity | auto]).
Qed.

End LoadBehaviour.

(** ** The size check, and [main] *)

Section MainBehaviour.
Context `{Platform} `{Runtime}.

Abbreviation loader := ProgramLoader.t.

(** The byte count of the size check is a product in [size_t]. *)
Lemma size_mul_wraps (n : Z) :
  SIZE_MODULUS mod sizeof_float = 0 ->
  size_mul (n + SIZE_MODULUS / sizeof_float) sizeof_float = size_mul n sizeof_float.
Proof.
  intros Hdiv. unfold size_mul, to_size_t.
  pose proof (Z.div_mod SIZE_MODULUS sizeof_float ltac:(discriminate)) as Hsplit.
  rewrite Hdiv, Z.add_0_r in Hsplit.
  replace ((n + SIZE_MODULUS / sizeof_float) * sizeof_float)
    with (n * sizeof_float + 1 * SIZE_MODULUS) by lia.
  apply Z_mod_plus_full.
Qed.

Lemma createInputTensor_size_wraps (s : loader) (data : list float) (size input_index : Z) :
  SIZE_MODULUS mod sizeof_float = 0 ->
  ProgramLoader.createInputTensor s data (size + SIZE_MODULUS / sizeof_float) input_index
    = ProgramLoader.createInputTensor s data size input_index.
Proof.
  intros Hdiv. unfold ProgramLoader.createInputTensor.
  rewrite (size_mul_wraps size Hdiv). reflexivity.
Qed.

(** X11.  [runInference] checks [input_size * sizeof(float)] as computed in
    [size_t]: where [sizeof(float)] divides the modulus of [size_t], an
    [input_size] larger by a quarter of that modulus gives the same status,
    the same loader and the same output. *)
Theorem runInference_input_size_wraps (s : loader) (input1 input2 : list float)
    (input_size : Z) (output : list float) (output_size : Z) :
  SIZE_MODULUS mod sizeof_float = 0 ->
  ProgramLoader.runInference s input1 input2
    (input_size + SIZE_MODULUS / sizeof_float) output output_size
    = ProgramLoader.runInference s input1 input2 input_size output output_size.
Proof.
  intros Hdiv. unfold ProgramLoader.runInference.
  destruct (ProgramLoader.isLoaded s); simpl; [|reflexivity].
  rewrite (createInputTensor_size_wraps s input1 input_size 0 Hdiv).
  destruct (ProgramLoader.createInputTensor s input1 input_size 0) as [[e1 s1]|];
    simpl; [|reflexivity].
  destruct (decide (e1 = Ok)); [|reflexivity].
  rewrite (createInputTensor_size_wraps s1 input2 input_size 1 Hdiv). reflexivity.
Qed.

(** What [runInference] does with the output buffer does not depend on
    what the buffer holds. *)
Lemma runInference_other_buffer (s s' : loader) (input1 input2 : list float)
    (input_size : Z) (output output' other : list float) (output_size : Z) (e : Error) :
  ProgramLoader.runInference s input1 input2 input_size output output_size
    = Some (e, s', output') ->
  (e <> Ok /\
   ProgramLoader.runInference s input1 input2 input_size other output_size
     = Some (e, s', other)) \/
  (e = Ok /\
   exists method output_tensor,
     Method_get_output method 0 = EValue_Tensor output_tensor /\
     to_size_t (numel output_tensor) <= output_size /\
     output' = memcpy output (impl_data output_tensor)
                 (size_mul (to_size_t (numel output_tensor)) sizeof_float) /\
     ProgramLoader.runInference s input1 input2 input_size other output_size
       = Some (Ok, s',
               memcpy other (impl_data output_tensor)
                 (size_mul (to_size_t (numel output_tensor)) sizeof_float))).
Proof.
  unfold ProgramLoader.runInference.
  destruct (ProgramLoader.isLoaded s); simpl;
    [|intros [= <- <- <-]; left; split; [discriminate | reflexivity]].
  destruct (ProgramLoader.createInputTensor s input1 input_size 0) as [[e1 s1]|];
    simpl; [|discriminate].
  destruct (decide (e1 = Ok)) as [->|Hfail1];
    [|intros [= <- <- <-]; left; split; [assumption | reflexivity]].
  destruct (ProgramLoader.createInputTensor s1 input2 input_size 1) as [[e2 s2]|];
    simpl; [|discriminate].
  destruct (decide (e2 = Ok)) as [->|Hfail2];
    [|intros [= <- <- <-]; left; split; [assumption | reflexivity]].
  destruct (ProgramLoader.get_method s2) as [method|]; simpl; [|discriminate].
  destruct (Method_execute method) as [[e0 state] allocations].
  destruct (decide (e0 = Ok)) as [->|Hfail0];
    [|intros [= <- <- <-]; left; split; [assumption | reflexivity]].
  destruct (Method_get_output _ 0) as [| | | |output_tensor] eqn:Hout;
    try (intros [= <- <- <-]; left; split; [discriminate | reflexivity]).
  destruct (output_size <? to_size_t (numel output_tensor)) eqn:Hsmall;
    [intros [= <- <- <-]; left; split; [discriminate | reflexivity]|].
  intros [= <- <-]. right. split; [reflexivity|].
  apply Z.ltb_ge in Hsmall. eauto 10.
Qed.

(** X17.  Provided output 0 of the method is never a tensor without
    elements, the exit status of [main] does not depend on what its
    uninitialized [output] array holds: [output[0]] is read only after it was
    written. *)
Theorem main_reads_written_output (uninitialized other : float) :
  sizeof_float < SIZE_MODULUS ->
  (forall method output_tensor,
     Method_get_output method 0 = EValue_Tensor output_tensor ->
     0 < to_size_t (numel output_tensor) /\ impl_data output_tensor <> []) ->
  main uninitialized = main other.
Proof.
  intros Hword Houtput. unfold main.
  destruct (ProgramLoader.loadProgram _) as [[e s]|]; simpl; [|reflexivity].
  destruct (decide (e = Ok)); [|reflexivity].
  destruct (runInference_returns s [0x40000000] [0x40400000] 1 [uninitialized] 1)
    as (e1 & s1 & output1 & Hrun).
  rewrite Hrun.
  destruct (runInference_other_buffer _ _ _ _ _ _ _ [other] _ _ Hrun)
    as [[Hfail ->] | (-> & method & output_tensor & Hout & Hfits & -> & ->)]; simpl.
  - destruct (decide (e1 = Ok)); [contradiction | reflexivity].
  - destruct (Houtput _ _ Hout) as [Hpos Hdata].
    assert (Hone : to_size_t (numel output_tensor) = 1) by lia.
    rewrite Hone.
    assert (Hbytes : size_mul 1 sizeof_float = sizeof_float).
    { unfold size_mul. apply to_size_t_small. unfold is_size_t, sizeof_float in *. lia. }
    rewrite Hbytes. unfold memcpy. rewrite Z.div_same by discriminate.
    destruct (impl_data output_tensor) as [|first rest]; [contradiction|].
    reflexivity.
Qed.

End MainBehaviour.

(** ** The further properties at concrete allocators and loaders *)

Lemma allocate_counter_growth_witness :
  let m := snd (@ETMemoryAllocator.allocate cortex_m (ETMemoryAllocator.make 64 0x1000) 1 8) in
  let m' := snd (@ETMemoryAllocator.allocate cortex_m m 1 8) in
  @is_size_t cortex_m 1 /\ @is_size_t cortex_m 8 /\
  @is_size_t cortex_m (ETMemoryAllocator.used_size m) /\
  ETMemoryAllocator.used_size m + 8 + 1 < @SIZE_MODULUS cortex_m /\
  @ETMemoryAllocator.allocate cortex_m m 1 8 = (Some 0x1008, m') /\
  ETMemoryAllocator.used_size m = 9 /\
  ETMemoryAllocator.used_size m' = 17 /\
  (ETMemoryAllocator.used_size m + 1 <= ETMemoryAllocator.used_size m'
     <= ETMemoryAllocator.used_size m + 1 + 8 /\
   (1 mod 8 <> 0 -> ETMemoryAllocator.used_size m + 1 < ETMemoryAllocator.used_size m')).
Proof.
  intros m m'.
  assert (Hrange : forall z, 0 <= z < 2 ^ 32 -> @is_size_t cortex_m z) by (intros z Hz; exact Hz).
  assert (H1 : @is_size_t cortex_m 1) by (apply Hrange; lia).
  assert (H8 : @is_size_t cortex_m 8) by (apply Hrange; lia).
  assert (Hm : @is_size_t cortex_m (ETMemoryAllocator.used_size m))
    by (apply Hrange; vm_compute; split; [discriminate | reflexivity]).
  assert (Hfit : ETMemoryAllocator.used_size m + 8 + 1 < @SIZE_MODULUS cortex_m)
    by (vm_compute; reflexivity).
  assert (Hcall : @ETMemoryAllocator.allocate cortex_m m 1 8 = (Some 0x1008, m'))
    by (vm_compute; reflexivity).
  refine (conj H1 (conj H8 (conj Hm (conj Hfit (conj Hcall (conj eq_refl (conj eq_refl _))))))).
  exact (@allocate_counter_growth cortex_m m m' 1 8 0x1008 H1 H8 Hm Hfit Hcall).
Defined.

Lemma free_size_of_used_witness :
  let m := snd (@ETMemoryAllocator.allocate cortex_m (ETMemoryAllocator.make 8 0x1000) 1 8) in
  @is_size_t cortex_m (ETMemoryAllocator.used_size m) /\
  @is_size_t cortex_m (MemoryAllocator.size (ETMemoryAllocator.base m)) /\
  MemoryAllocator.size (ETMemoryAllocator.base m) < ETMemoryAllocator.used_size m /\
  (ETMemoryAllocator.used_size m <= MemoryAllocator.size (ETMemoryAllocator.base m) ->
   @ETMemoryAllocator.free_size cortex_m m
     = MemoryAllocator.size (ETMemoryAllocator.base m) - ETMemoryAllocator.used_size m) /\
  (MemoryAllocator.size (ETMemoryAllocator.base m) < ETMemoryAllocator.used_size m ->
   @ETMemoryAllocator.free_size cortex_m m
     = @SIZE_MODULUS cortex_m
       - (ETMemoryAllocator.used_size m - MemoryAllocator.size (ETMemoryAllocator.base m))).
Proof.
  intros m.
  assert (Hused : @is_size_t cortex_m (ETMemoryAllocator.used_size m))
    by (vm_compute; split; [discriminate | reflexivity]).
  assert (Hcap : @is_size_t cortex_m (MemoryAllocator.size (ETMemoryAllocator.base m)))
    by (vm_compute; split; [discriminate | reflexivity]).
  refine (conj Hused (conj Hcap (conj _ _))); [vm_compute; reflexivity|].
  exact (@free_size_of_used cortex_m m Hused Hcap).
Defined.

Lemma runInference_failure_keeps_output_witness :
  let rt := scripted execute_fails in
  let s := loaded execute_fails in
  let r := inference_of
             (@ProgramLoader.runInference cortex_m _ rt s [0x40000000] [0x40400000] 1 [7] 1) in
  @ProgramLoader.runInference cortex_m _ rt s [0x40000000] [0x40400000] 1 [7] 1 = Some r /\
  r.1.1 = OperatorMissing /\
  r.1.1 <> Ok /\
  r.2 = [7].
Proof.
  intros rt s r.
  assert (Hrun : @ProgramLoader.runInference cortex_m _ rt s [0x40000000] [0x40400000] 1 [7] 1
                 = Some (r.1.1, r.1.2, r.2)) by (vm_compute; reflexivity).
  assert (Hfail : r.1.1 <> Ok) by (vm_compute; discriminate).
  refine (conj _ (conj _ (conj Hfail _))); [vm_compute; reflexivity..|].
  exact (@runInference_failure_keeps_output cortex_m _ rt s r.1.2
           [0x40000000] [0x40400000] 1 [7] r.2 1 r.1.1 Hrun Hfail).
Defined.

Lemma runInference_calls_witness :
  let rt := scripted (add_model [0x40A00000]) in
  let s := loaded (add_model [0x40A00000]) in
  let r := inference_of
             (@ProgramLoader.runInference cortex_m _ rt s [0x40000000] [0x40400000] 1 [7] 1) in
  @ProgramLoader.runInference cortex_m _ rt s [0x40000000] [0x40400000] 1 [7] 1 = Some r /\
  r.1.1 = Ok /\
  exists calls,
    ProgramLoader.calls_ r.1.2 = ProgramLoader.calls_ s ++ calls /\
    calls `prefix_of` [Call_set_input 0; Call_set_input 1; Call_execute] /\
    (r.1.1 = Ok -> calls = [Call_set_input 0; Call_set_input 1; Call_execute]).
Proof.
  intros rt s r.
  assert (Hrun : @ProgramLoader.runInference cortex_m _ rt s [0x40000000] [0x40400000] 1 [7] 1
                 = Some (r.1.1, r.1.2, r.2)) by (vm_compute; reflexivity).
  refine (conj _ (conj _ _)); [vm_compute; reflexivity..|].
  exact (@runInference_calls cortex_m _ rt s r.1.2
           [0x40000000] [0x40400000] 1 [7] r.2 1 r.1.1 Hrun).
Defined.

Lemma runInference_frame_witness :
  let rt := scripted (add_model [0x40A00000]) in
  let s := loaded (add_model [0x40A00000]) in
  let r := inference_of
             (@ProgramLoader.runInference cortex_m _ rt s [0x40000000] [0x40400000] 1 [7] 1) in
  @ProgramLoader.runInference cortex_m _ rt s [0x40000000] [0x40400000] 1 [7] 1 = Some r /\
  ProgramLoader.initialized_ r.1.2 = ProgramLoader.initialized_ s /\
  ProgramLoader.program_ r.1.2 = ProgramLoader.program_ s /\
  ProgramLoader.memory_manager_ r.1.2 = ProgramLoader.memory_manager_ s /\
  ProgramLoader.planned_memory_ r.1.2 = ProgramLoader.planned_memory_ s /\
  ProgramLoader.planned_buffers_ r.1.2 = ProgramLoader.planned_buffers_ s /\
  ProgramLoader.planned_spans_ r.1.2 = ProgramLoader.planned_spans_ s /\
  ProgramLoader.isLoaded r.1.2 = ProgramLoader.isLoaded s.
Proof.
  intros rt s r.
  assert (Hrun : @ProgramLoader.runInference cortex_m _ rt s [0x40000000] [0x40400000] 1 [7] 1
                 = Some (r.1.1, r.1.2, r.2)) by (vm_compute; reflexivity).
  split; [vm_compute; reflexivity|].
  exact (@runInference_frame cortex_m _ rt s r.1.2
           [0x40000000] [0x40400000] 1 [7] r.2 1 r.1.1 Hrun).
Defined.

Lemma runInference_execute_failure_witness :
  let rt := scripted execute_fails in
  let s := loaded execute_fails in
  let s1 := state_of (@ProgramLoader.createInputTensor cortex_m _ rt s [0x40000000] 1 0) in
  let s2 := state_of (@ProgramLoader.createInputTensor cortex_m _ rt s1 [0x40400000] 1 1) in
  let method := method_of s2 in
  let state := (@Method_execute _ rt method).1.2 in
  let allocations := (@Method_execute _ rt method).2 in
  @ProgramLoader.createInputTensor cortex_m _ rt s [0x40000000] 1 0 = Some (Ok, s1) /\
  @ProgramLoader.createInputTensor cortex_m _ rt s1 [0x40400000] 1 1 = Some (Ok, s2) /\
  ProgramLoader.get_method s2 = Some method /\
  @Method_execute _ rt method = (OperatorMissing, state, allocations) /\
  OperatorMissing <> Ok /\
  @ProgramLoader.runInference cortex_m _ rt s [0x40000000] [0x40400000] 1 [7] 1
    = Some (OperatorMissing,
            @ProgramLoader.after_execute cortex_m _ s2 method state allocations, [7]).
Proof.
  intros rt s s1 s2 method state allocations.
  assert (Hbind0 : @ProgramLoader.createInputTensor cortex_m _ rt s [0x40000000] 1 0
                   = Some (Ok, s1)) by (vm_compute; reflexivity).
  assert (Hbind1 : @ProgramLoader.createInputTensor cortex_m _ rt s1 [0x40400000] 1 1
                   = Some (Ok, s2)) by (vm_compute; reflexivity).
  assert (Hget : ProgramLoader.get_method s2 = Some method) by (vm_compute; reflexivity).
  assert (Hexec : @Method_execute _ rt method = (OperatorMissing, state, allocations))
    by reflexivity.
  assert (Hfail : OperatorMissing <> Ok) by discriminate.
  refine (conj Hbind0 (conj Hbind1 (conj Hget (conj Hexec (conj Hfail _))))).
  exact (@runInference_execute_failure cortex_m _ rt s s1 s2 method state allocations
           OperatorMissing [0x40000000] [0x40400000] 1 [7] 1
           Hbind0 Hbind1 Hget Hexec Hfail).
Defined.

Lemma runInference_output_not_tensor_witness :
  let rt := scripted output_not_tensor in
  let s := loaded output_not_tensor in
  let s1 := state_of (@ProgramLoader.createInputTensor cortex_m _ rt s [0x40000000] 1 0) in
  let s2 := state_of (@ProgramLoader.createInputTensor cortex_m _ rt s1 [0x40400000] 1 1) in
  let method := method_of s2 in
  let state := (@Method_execute _ rt method).1.2 in
  let allocations := (@Method_execute _ rt method).2 in
  @ProgramLoader.createInputTensor cortex_m _ rt s [0x40000000] 1 0 = Some (Ok, s1) /\
  @ProgramLoader.createInputTensor cortex_m _ rt s1 [0x40400000] 1 1 = Some (Ok, s2) /\
  ProgramLoader.get_method s2 = Some method /\
  @Method_execute _ rt method = (Ok, state, allocations) /\
  isTensor (@Method_get_output _ rt
              {| method_meta := method_meta method; method_state := state |} 0) = false /\
  @ProgramLoader.runInference cortex_m _ rt s [0x40000000] [0x40400000] 1 [7] 1
    = Some (InvalidArgument,
            @ProgramLoader.after_execute cortex_m _ s2 method state allocations, [7]).
Proof.
  intros rt s s1 s2 method state allocations.
  assert (Hbind0 : @ProgramLoader.createInputTensor cortex_m _ rt s [0x40000000] 1 0
                   = Some (Ok, s1)) by (vm_compute; reflexivity).
  assert (Hbind1 : @ProgramLoader.createInputTensor cortex_m _ rt s1 [0x40400000] 1 1
                   = Some (Ok, s2)) by (vm_compute; reflexivity).
  assert (Hget : ProgramLoader.get_method s2 = Some method) by (vm_compute; reflexivity).
  assert (Hexec : @Method_execute _ rt method = (Ok, state, allocations)) by reflexivity.
  assert (Hout : isTensor (@Method_get_output _ rt
                             {| method_meta := method_meta method; method_state := state |} 0)
                 = false) by reflexivity.
  refine (conj Hbind0 (conj Hbind1 (conj Hget (conj Hexec (conj Hout _))))).
  exact (@runInference_output_not_tensor cortex_m _ rt s s1 s2 method state allocations
           [0x40000000] [0x40400000] 1 [7] 1 Hbind0 Hbind1 Hget Hexec Hout).
Defined.

Lemma createInputTensor_stores_slot_witness :
  let rt := scripted first_input_refused in
  let s := loaded first_input_refused in
  let method := method_of s in
  let data := [0x40000000] in
  ProgramLoader.get_method s = Some method /\
  @input_tensor_meta _ rt (method_meta method) 0 = ResOk one_float /\
  ti_nbytes one_float = @size_mul cortex_m 1 sizeof_float /\
  0 <= 0 < 2 /\
  length (ProgramLoader.sizes_storage s) = 2%nat /\
  length (ProgramLoader.dim_order_storage s) = 2%nat /\
  length (ProgramLoader.tensor_impls s) = 2%nat /\
  exists e s',
    @ProgramLoader.createInputTensor cortex_m _ rt s data 1 0 = Some (e, s') /\
    ProgramLoader.sizes_storage s' !! Z.to_nat 0 = Some (ti_sizes one_float) /\
    ProgramLoader.dim_order_storage s' !! Z.to_nat 0 = Some (ti_dim_order one_float) /\
    ProgramLoader.tensor_impls s' !! Z.to_nat 0
      = Some (Some {| impl_type := Float;
                      impl_dim := Z.of_nat (length (ti_sizes one_float));
                      impl_sizes := ti_sizes one_float;
                      impl_data := data;
                      impl_dim_order := ti_dim_order one_float |}) /\
    (forall j : nat, j <> Z.to_nat 0 ->
       ProgramLoader.sizes_storage s' !! j = ProgramLoader.sizes_storage s !! j /\
       ProgramLoader.dim_order_storage s' !! j = ProgramLoader.dim_order_storage s !! j /\
       ProgramLoader.tensor_impls s' !! j = ProgramLoader.tensor_impls s !! j).
Proof.
  intros rt s method data.
  assert (Hget : ProgramLoader.get_method s = Some method) by (vm_compute; reflexivity).
  assert (Hmeta : @input_tensor_meta _ rt (method_meta method) 0 = ResOk one_float)
    by reflexivity.
  assert (Hbytes : ti_nbytes one_float = @size_mul cortex_m 1 sizeof_float)
    by (vm_compute; reflexivity).
  assert (Hindex : 0 <= 0 < 2) by lia.
  assert (Hl1 : length (ProgramLoader.sizes_storage s) = 2%nat) by (vm_compute; reflexivity).
  assert (Hl2 : length (ProgramLoader.dim_order_storage s) = 2%nat)
    by (vm_compute; reflexivity).
  assert (Hl3 : length (ProgramLoader.tensor_impls s) = 2%nat) by (vm_compute; reflexivity).
  refine (conj Hget (conj Hmeta (conj Hbytes (conj Hindex (conj Hl1 (conj Hl2 (conj Hl3 _))))))).
  exact (@createInputTensor_stores_slot cortex_m _ rt s method one_float data 1 0
           Hget Hmeta Hbytes Hindex Hl1 Hl2 Hl3).
Defined.

Lemma runInference_input_size_wraps_witness :
  let rt := scripted (add_model [0x40A00000]) in
  let s := loaded (add_model [0x40A00000]) in
  @SIZE_MODULUS cortex_m mod sizeof_float = 0 /\
  1 + @SIZE_MODULUS cortex_m / sizeof_float = 0x40000001 /\
  @ProgramLoader.runInference cortex_m _ rt s [0x40000000] [0x40400000]
    (1 + @SIZE_MODULUS cortex_m / sizeof_float) [7] 1
    = @ProgramLoader.runInference cortex_m _ rt s [0x40000000] [0x40400000] 1 [7] 1.
Proof.
  intros rt s.
  assert (Hdiv : @SIZE_MODULUS cortex_m mod sizeof_float = 0) by (vm_compute; reflexivity).
  refine (conj Hdiv (conj _ _)); [vm_compute; reflexivity|].
  exact (@runInference_input_size_wraps cortex_m _ rt s [0x40000000] [0x40400000] 1 [7] 1
           Hdiv).
Defined.

Lemma reachable_well_formed_witness :
  let rt := scripted (add_model [0x40A00000]) in
  let s := loaded (add_model [0x40A00000]) in
  @reachable cortex_m _ rt s /\
  (@well_formed cortex_m _ s /\
   exists e s', @ProgramLoader.loadProgram cortex_m _ rt s = Some (e, s')).
Proof.
  intros rt s.
  assert (Hreach : @reachable cortex_m _ rt s).
  { apply (@reachable_loadProgram cortex_m _ rt
             (@ProgramLoader.initialize cortex_m _ ProgramLoader.new) s Ok).
    - apply reachable_initialize, reachable_new.
    - vm_compute. reflexivity. }
  split; [exact Hreach|].
  exact (@reachable_well_formed cortex_m _ rt s Hreach).
Defined.

Lemma loadProgram_not_initialized_witness :
  let rt := scripted (add_model [0x40A00000]) in
  ProgramLoader.initialized_ (@ProgramLoader.new scripted_types) = false /\
  @ProgramLoader.loadProgram cortex_m _ rt ProgramLoader.new
    = Some (InvalidState, ProgramLoader.new).
Proof.
  intros rt. split; [reflexivity|].
  exact (@loadProgram_not_initialized cortex_m _ rt ProgramLoader.new eq_refl).
Defined.

Lemma loadProgram_success_state_witness :
  let rt := scripted (add_model [0x40A00000]) in
  let s := @ProgramLoader.initialize cortex_m _ ProgramLoader.new in
  let s' := loaded (add_model [0x40A00000]) in
  @ProgramLoader.loadProgram cortex_m _ rt s = Some (Ok, s') /\
  ProgramLoader.initialized_ s' = true /\
  ProgramLoader.isLoaded s' = true /\
  is_Some (ProgramLoader.program_ s') /\
  ProgramLoader.memory_manager_ s' = true /\
  ProgramLoader.planned_memory_ s' = Some (ProgramLoader.planned_spans_ s') /\
  span_data <$> ProgramLoader.planned_spans_ s' = ProgramLoader.planned_buffers_ s'.
Proof.
  intros rt s s'.
  assert (Hload : @ProgramLoader.loadProgram cortex_m _ rt s = Some (Ok, s'))
    by (vm_compute; reflexivity).
  split; [exact Hload|].
  exact (@loadProgram_success_state cortex_m _ rt s s' Hload).
Defined.

Lemma loadProgram_failure_keeps_method_witness :
  let rt := scripted large_plan in
  let s := loaded large_plan in
  let r := load_of (@ProgramLoader.loadProgram cortex_m _ rt s) in
  ProgramLoader.isLoaded s = true /\
  @ProgramLoader.loadProgram cortex_m _ rt s = Some r /\
  r.1 = MemoryAllocationFailed /\
  r.1 <> Ok /\
  ProgramLoader.planned_spans_ r.2 = [] /\
  ProgramLoader.method_ r.2 = ProgramLoader.method_ s /\
  ProgramLoader.isLoaded r.2 = ProgramLoader.isLoaded s.
Proof.
  intros rt s r.
  assert (Hload : @ProgramLoader.loadProgram cortex_m _ rt s = Some (r.1, r.2))
    by (vm_compute; reflexivity).
  assert (Hfail : r.1 <> Ok) by (vm_compute; discriminate).
  refine (conj _ (conj _ (conj _ (conj Hfail (conj _ _))))); [vm_compute; reflexivity..|].
  exact (@loadProgram_failure_keeps_method cortex_m _ rt s r.2 r.1 Hload Hfail).
Defined.

Lemma loadProgram_calls_witness :
  let rt := scripted large_plan in
  let s := loaded large_plan in
  let r := load_of (@ProgramLoader.loadProgram cortex_m _ rt s) in
  @ProgramLoader.loadProgram cortex_m _ rt s = Some r /\
  ProgramLoader.calls_ r.2
    = [Call_runtime_init; Call_Program_load; Call_load_method; Call_Program_load] /\
  ProgramLoader.initialized_ r.2 = ProgramLoader.initialized_ s /\
  exists calls,
    ProgramLoader.calls_ r.2 = ProgramLoader.calls_ s ++ calls /\
    calls `prefix_of` [Call_Program_load; Call_load_method] /\
    (r.1 = Ok -> calls = [Call_Program_load; Call_load_method]).
Proof.
  intros rt s r.
  assert (Hload : @ProgramLoader.loadProgram cortex_m _ rt s = Some (r.1, r.2))
    by (vm_compute; reflexivity).
  refine (conj _ (conj _ _)); [vm_compute; reflexivity..|].
  exact (@loadProgram_calls cortex_m _ rt s r.2 r.1 Hload).
Defined.

Lemma main_reads_written_output_witness :
  let rt := scripted (add_model [0x40A00000]) in
  sizeof_float < @SIZE_MODULUS cortex_m /\
  (forall method output_tensor,
     @Method_get_output _ rt method 0 = EValue_Tensor output_tensor ->
     0 < @to_size_t cortex_m (numel output_tensor) /\ impl_data output_tensor <> []) /\
  @main cortex_m _ rt 0 = Some 0 /\
  @main cortex_m _ rt 0 = @main cortex_m _ rt 0x7FC00000.
Proof.
  intros rt.
  assert (Hword : sizeof_float < @SIZE_MODULUS cortex_m) by (vm_compute; reflexivity).
  assert (Houtput : forall method output_tensor,
            @Method_get_output _ rt method 0 = EValue_Tensor output_tensor ->
            0 < @to_size_t cortex_m (numel output_tensor) /\ impl_data output_tensor <> []).
  { intros method output_tensor [= <-]. split; [vm_compute; reflexivity | discriminate]. }
  refine (conj Hword (conj Houtput (conj _ _))); [vm_compute; reflexivity|].
  exact (@main_reads_written_output cortex_m _ rt 0 0x7FC00000 Hword Houtput).
Defined.
